(** * Serverless contact form: the Lambda handler of [lambda_function.py]

    A shallow embedding of [lambda_handler] and of the Python operations it
    relies on, followed by the properties of the handler's three response
    paths (200, 400, 500) and of the record it hands to the table. *)

From Stdlib Require Import String Ascii List ZArith NArith Bool Lia.
From Stdlib Require Import Floats.SpecFloat.
Import ListNotations.
Local Open Scope string_scope.
Set Warnings "-register-all".

(** ** Python values and the operations the handler applies to them *)

Module Py.

(** The values an event can hold.  The Lambda runtime builds the event by
    decoding JSON, and [json.loads] builds the body the same way, so a value
    is None, a bool, an int, a float, a str, a list or a dict with str keys.
    A [string] stands for a Python str whose code points are below 256. *)
Inductive pyval : Type :=
| PNone
| PBool (b : bool)
| PInt (z : Z)
| PFloat (f : spec_float)
| PStr (s : string)
| PList (l : list pyval)
| PDict (d : list (string * pyval)).

(** The exceptions that can arise in the handler; all of them derive from
    Python's [Exception]. *)
Inductive exn : Type :=
| AttributeError
| TypeError
| KeyError (key : string)
| JSONDecodeError
| StoreError (msg : string).

(** A dict literal is kept as the list of its entries, in source order; a
    lookup returns the entry found first. *)
Fixpoint dict_lookup (k : string) (d : list (string * pyval)) : option pyval :=
  match d with
  | [] => None
  | (k', v) :: rest => if String.eqb k k' then Some v else dict_lookup k rest
  end.

Definition dict_mem (k : string) (d : list (string * pyval)) : bool :=
  match dict_lookup k d with
  | Some _ => true
  | None => false
  end.

Definition dict_keys (d : list (string * pyval)) : list string := map fst d.

(** [s == v] for a str [s]: only an equal str compares equal. *)
Definition str_eq (s : string) (v : pyval) : bool :=
  match v with
  | PStr t => String.eqb s t
  | _ => false
  end.

(** [needle in hay] on two strs: substring search. *)
Fixpoint str_contains (needle hay : string) : bool :=
  String.prefix needle hay
  || match hay with
     | EmptyString => false
     | String _ rest => str_contains needle rest
     end.

(** [key in container] for a str [key]: key membership on a dict, element
    membership on a list, substring search on a str; the other values are
    not iterable and the test raises TypeError. *)
Definition contains (key : string) (container : pyval) : exn + bool :=
  match container with
  | PDict d => inr (dict_mem key d)
  | PList l => inr (existsb (str_eq key) l)
  | PStr s => inr (str_contains key s)
  | PNone | PBool _ | PInt _ | PFloat _ => inl TypeError
  end.

(** [container[key]] for a str [key]: only a dict accepts a str subscript. *)
Definition getitem (container : pyval) (key : string) : exn + pyval :=
  match container with
  | PDict d =>
      match dict_lookup key d with
      | Some v => inr v
      | None => inl (KeyError key)
      end
  | _ => inl TypeError
  end.

(** [obj.get(key, default)]: a dict method; any other value has no
    attribute [get]. *)
Definition get (obj : pyval) (key : string) (default : pyval) : exn + pyval :=
  match obj with
  | PDict d =>
      match dict_lookup key d with
      | Some v => inr v
      | None => inr default
      end
  | _ => inl AttributeError
  end.

(** [all(field in body for field in fields)]: the generator is consumed
    left to right and stops at the first false test; a raising test
    propagates. *)
Fixpoint all_in (fields : list string) (body : pyval) : exn + bool :=
  match fields with
  | [] => inr true
  | field :: rest =>
      match contains field body with
      | inl e => inl e
      | inr false => inr false
      | inr true => all_in rest body
      end
  end.

End Py.
Export Py.

(** ** Text helpers: digits in a fixed or minimal width *)

Module Text.

Definition dq : string := String "034"%char EmptyString.

Definition hex_digit (n : N) : ascii :=
  match n with
  | 0 => "0" | 1 => "1" | 2 => "2" | 3 => "3" | 4 => "4" | 5 => "5"
  | 6 => "6" | 7 => "7" | 8 => "8" | 9 => "9" | 10 => "a" | 11 => "b"
  | 12 => "c" | 13 => "d" | 14 => "e" | _ => "f"
  end%N%char.

(** The [width] lowest hexadecimal digits of [n], most significant first. *)
Fixpoint hex_fixed (width : nat) (n : N) (acc : string) : string :=
  match width with
  | O => acc
  | S w => hex_fixed w (n / 16) (String (hex_digit (n mod 16)) acc)
  end.

Definition dec_digit (n : N) : ascii := ascii_of_N (48 + n).

(** The decimal digits of [n]; [fuel] bounds the number of digits. *)
Fixpoint dec_digits (fuel : nat) (n : N) (acc : string) : string :=
  match fuel with
  | O => acc
  | S f =>
      let acc' := String (dec_digit (n mod 10)) acc in
      if (n / 10 =? 0)%N then acc' else dec_digits f (n / 10) acc'
  end.

Definition dec (n : N) : string := dec_digits (S (N.size_nat n)) n EmptyString.

Fixpoint zeros (k : nat) : string :=
  match k with
  | O => EmptyString
  | S k' => String "0" (zeros k')
  end.

(** [%0<width>d] on a non-negative integer. *)
Definition zpad (width : nat) (n : N) : string :=
  let s := dec n in
  zeros (width - String.length s) ++ s.

End Text.

(** ** [uuid.uuid4] and [str] of a UUID *)

Module Uuid.
Import Text.
Local Open Scope N_scope.

(** [UUID(bytes=os.urandom(16), version=4)]: the sixteen random bytes read
    as an integer below 2^128, with the variant set to RFC 4122 and the
    version set to 4. *)
Definition uuid4 (random : N) : N :=
  let int := random mod 2 ^ 128 in
  let int := N.ldiff int (N.shiftl 0xc000 48) in
  let int := N.lor int (N.shiftl 0x8000 48) in
  let int := N.ldiff int (N.shiftl 0xf000 64) in
  N.lor int (N.shiftl 4 76).

(** [str(u)]: the 32 hexadecimal digits of the integer, grouped 8-4-4-4-12. *)
Definition str (u : N) : string :=
  let hex := hex_fixed 32 u EmptyString in
  (substring 0 8 hex ++ "-" ++ substring 8 4 hex ++ "-" ++ substring 12 4 hex
   ++ "-" ++ substring 16 4 hex ++ "-" ++ substring 20 12 hex)%string.

End Uuid.

(** ** [datetime.utcnow().isoformat()] *)

Module Datetime.
Import Text.

(** A naive datetime: no tzinfo, hence no offset suffix in its text. *)
Record datetime : Type := {
  year : N; month : N; day : N;
  hour : N; minute : N; second : N; microsecond : N
}.

Definition isoformat (t : datetime) : string :=
  zpad 4 (year t) ++ "-" ++ zpad 2 (month t) ++ "-" ++ zpad 2 (day t)
  ++ "T" ++ zpad 2 (hour t) ++ ":" ++ zpad 2 (minute t) ++ ":" ++ zpad 2 (second t)
  ++ (if (microsecond t =? 0)%N then EmptyString
      else "." ++ zpad 6 (microsecond t)).

End Datetime.

(** ** [json.dumps] on the dicts the handler encodes *)

Module Json.
Import Text.

(** One character of [py_encode_basestring_ascii]. *)
Definition escape_char (c : ascii) : string :=
  let n := N_of_ascii c in
  if (n =? 34)%N then String "\" dq
  else if (n =? 92)%N then "\\"
  else if (n =? 10)%N then "\n"
  else if (n =? 13)%N then "\r"
  else if (n =? 9)%N then "\t"
  else if (n =? 8)%N then "\b"
  else if (n =? 12)%N then "\f"
  else if ((n <? 32) || (126 <? n))%N then "\u" ++ hex_fixed 4 n EmptyString
  else String c EmptyString.

Fixpoint escape (s : string) : string :=
  match s with
  | EmptyString => EmptyString
  | String c rest => escape_char c ++ escape rest
  end.

Definition encode_str (s : string) : string := dq ++ escape s ++ dq.

Fixpoint encode_items (items : list (string * string)) : string :=
  match items with
  | [] => EmptyString
  | [(k, v)] => encode_str k ++ ": " ++ encode_str v
  | (k, v) :: rest => encode_str k ++ ": " ++ encode_str v ++ ", " ++ encode_items rest
  end.

(** [json.dumps(d)] with the default separators and [ensure_ascii], for a
    dict [d] whose keys and values are strs. *)
Definition dumps (d : list (string * string)) : string :=
  "{" ++ encode_items d ++ "}".

End Json.

(** ** The world of one invocation *)

Module Runtime.
Import Datetime.

(** What the handler prints; the f-strings are kept as their arguments. *)
Inductive log_entry : Type :=
| LogReceived (event : pyval)
| LogValidationFailed
| LogSaved (item : pyval)
| LogError (e : exn).

(** The observable effects: the lines printed and the items passed to
    [table.put_item], each in order. *)
Record World : Type := {
  stdout : list log_entry;
  put_item_calls : list pyval
}.

(** What the handler reads from outside during one invocation:
    - [json_decode s] is the outcome of [json.loads] on the str [s];
    - [urandom] is the entropy [uuid.uuid4] draws;
    - [utcnow] is the clock reading;
    - [put_item item] is the outcome of [table.put_item(Item=item)]. *)
Record Env : Type := {
  json_decode : string -> exn + pyval;
  urandom : N;
  utcnow : datetime;
  put_item : pyval -> exn + unit
}.

(** Computations that print, call the table and may raise: the effects made
    before an exception stay. *)
Definition M (A : Type) : Type := World -> (exn + A) * World.

Definition ret {A : Type} (a : A) : M A := fun w => (inr a, w).

Definition bind {A B : Type} (m : M A) (k : A -> M B) : M B :=
  fun w =>
    match m w with
    | (inl e, w') => (inl e, w')
    | (inr a, w') => k a w'
    end.

Definition lift {A : Type} (r : exn + A) : M A := fun w => (r, w).

(** [try: m  except Exception as e: h e]. *)
Definition try_except {A : Type} (m : M A) (h : exn -> M A) : M A :=
  fun w =>
    match m w with
    | (inl e, w') => h e w'
    | (inr a, w') => (inr a, w')
    end.

(** [print] appends a line to the log; it is taken not to raise. *)
Definition print (l : log_entry) : M unit :=
  fun w => (inr tt, {| stdout := stdout w ++ [l];
                       put_item_calls := put_item_calls w |}).

(** [json.loads(s)]: a str is decoded; a value that is neither str nor
    bytes raises TypeError before any decoding. *)
Definition json_loads (env : Env) (s : pyval) : M pyval :=
  match s with
  | PStr text => lift (json_decode env text)
  | _ => lift (inl TypeError)
  end.

(** [table.put_item(Item=item)]: the call is recorded, then the table
    answers. *)
Definition table_put_item (env : Env) (item : pyval) : M unit :=
  fun w => (put_item env item,
            {| stdout := stdout w;
               put_item_calls := put_item_calls w ++ [item] |}).

End Runtime.
Export Runtime.

Declare Scope py_scope.
Delimit Scope py_scope with py.
Notation "x <- m ;; k" := (bind m (fun x => k))
  (at level 61, m at next level, right associativity) : py_scope.
Notation "m ;;; k" := (bind m (fun _ => k))
  (at level 61, right associativity) : py_scope.

(** ** The handler *)

Section Handler.

Variable env : Env.

Local Open Scope py_scope.

Definition required_fields : list string := ["name"; "email"; "message"].

(** Lines 21 to 66: the body of the [try]. *)
Definition try_block (event : pyval) : M pyval :=
  raw <- lift (Py.get event "body" (PStr "{}")) ;;
  body <- json_loads env raw ;;
  present <- lift (all_in required_fields body) ;;
  if negb present then
    print LogValidationFailed ;;;
    ret (PDict
      [("statusCode", PInt 400);
       ("headers", PDict [("Content-Type", PStr "application/json");
                          ("Access-Control-Allow-Origin", PStr "*")]);
       ("body", PStr (Json.dumps
          [("error", "Missing required fields: name, email, message")]))])
  else
    name <- lift (getitem body "name") ;;
    email <- lift (getitem body "email") ;;
    message <- lift (getitem body "message") ;;
    let submission_id := Uuid.str (Uuid.uuid4 (urandom env)) in
    let timestamp := Datetime.isoformat (utcnow env) in
    let item := PDict
      [("id", PStr submission_id);
       ("name", name);
       ("email", email);
       ("message", message);
       ("submittedAt", PStr timestamp)] in
    table_put_item env item ;;;
    print (LogSaved item) ;;;
    ret (PDict
      [("statusCode", PInt 200);
       ("headers", PDict [("Content-Type", PStr "application/json");
                          ("Access-Control-Allow-Origin", PStr "*")]);
       ("body", PStr (Json.dumps
          [("message", "Form submitted successfully!")]))]).

(** Lines 68 to 78: the [except Exception as e] clause. *)
Definition except_block (e : exn) : M pyval :=
  print (LogError e) ;;;
  ret (PDict
    [("statusCode", PInt 500);
     ("headers", PDict [("Content-Type", PStr "application/json");
                        ("Access-Control-Allow-Origin", PStr "*")]);
     ("body", PStr (Json.dumps
        [("error", "An internal error occurred.")]))]).

Definition lambda_handler (event context : pyval) : M pyval :=
  print (LogReceived event) ;;;
  try_except (try_block event) except_block.

End Handler.

(** ** A reference decoder

    A decoder for JSON texts without fractional or exponent numbers and
    without escapes above code point 255.  The handler is stated over any
    decoder ([json_decode] of [Env]); this one instantiates it on concrete
    request bodies. *)

Module JsonRef.
Import Text.

Definition is_ws (c : ascii) : bool :=
  let n := N_of_ascii c in
  ((n =? 32) || (n =? 9) || (n =? 10) || (n =? 13))%N.

Fixpoint skip_ws (s : string) : string :=
  match s with
  | String c rest => if is_ws c then skip_ws rest else s
  | EmptyString => s
  end.

Fixpoint drop (n : nat) (s : string) : string :=
  match n, s with
  | S n', String _ rest => drop n' rest
  | _, _ => s
  end.

Definition hex_value (c : ascii) : option N :=
  let n := N_of_ascii c in
  if ((48 <=? n) && (n <=? 57))%N then Some (n - 48)%N
  else if ((97 <=? n) && (n <=? 102))%N then Some (n - 87)%N
  else if ((65 <=? n) && (n <=? 70))%N then Some (n - 55)%N
  else None.

Definition unescape (c : ascii) : option ascii :=
  let n := N_of_ascii c in
  if (n =? 34)%N then Some c
  else if (n =? 92)%N then Some c
  else if (n =? 47)%N then Some c
  else if (n =? 98)%N then Some "008"%char
  else if (n =? 102)%N then Some "012"%char
  else if (n =? 110)%N then Some "010"%char
  else if (n =? 114)%N then Some "013"%char
  else if (n =? 116)%N then Some "009"%char
  else None.

(** The text after an opening quote: the decoded str and what follows the
    closing quote.  [acc] holds the characters read so far, last first. *)
Fixpoint scan_string (s : string) (acc : list ascii) : option (string * string) :=
  match s with
  | EmptyString => None
  | String c rest =>
      let n := N_of_ascii c in
      if (n =? 34)%N then Some (string_of_list_ascii (rev acc), rest)
      else if (n <? 32)%N then None
      else if (n =? 92)%N then
        match rest with
        | String "u" (String a (String b (String x (String y rest')))) =>
            match hex_value a, hex_value b, hex_value x, hex_value y with
            | Some 0%N, Some 0%N, Some h, Some l =>
                scan_string rest' (ascii_of_N (16 * h + l) :: acc)
            | _, _, _, _ => None
            end
        | String e rest' =>
            match unescape e with
            | Some c' => scan_string rest' (c' :: acc)
            | None => None
            end
        | EmptyString => None
        end
      else scan_string rest (c :: acc)
  end.

Definition is_digit (c : ascii) : bool :=
  let n := N_of_ascii c in ((48 <=? n) && (n <=? 57))%N.

Fixpoint scan_digits (s : string) (acc : N) : N * string :=
  match s with
  | String c rest =>
      if is_digit c then scan_digits rest (10 * acc + (N_of_ascii c - 48))%N
      else (acc, s)
  | EmptyString => (acc, s)
  end.

(** An optional minus sign, then either a lone 0 or a run of digits that
    does not start with 0; refused when a fraction or an exponent follows. *)
Definition scan_int (s : string) : option (Z * string) :=
  let '(neg, s1) :=
    match s with
    | String "-" rest => (true, rest)
    | _ => (false, s)
    end in
  match s1 with
  | String c rest =>
      if is_digit c then
        let '(n, s2) :=
          if (N_of_ascii c =? 48)%N then (0%N, rest) else scan_digits s1 0%N in
        match s2 with
        | String "." _ | String "e" _ | String "E" _ => None
        | _ => Some (if neg then (- Z.of_N n)%Z else Z.of_N n, s2)
        end
      else None
  | EmptyString => None
  end.

(** A later pair with a key already present replaces the value in place. *)
Fixpoint dict_set (k : string) (v : pyval) (d : list (string * pyval))
  : list (string * pyval) :=
  match d with
  | [] => [(k, v)]
  | (k', v') :: rest =>
      if String.eqb k k' then (k, v) :: rest else (k', v') :: dict_set k v rest
  end.

Definition scan_literal (s : string) : option (pyval * string) :=
  if prefix "null" s then Some (PNone, drop 4 s)
  else if prefix "true" s then Some (PBool true, drop 4 s)
  else if prefix "false" s then Some (PBool false, drop 5 s)
  else if prefix "NaN" s then Some (PFloat S754_nan, drop 3 s)
  else if prefix "Infinity" s then Some (PFloat (S754_infinity false), drop 8 s)
  else if prefix "-Infinity" s then Some (PFloat (S754_infinity true), drop 9 s)
  else match scan_int s with
       | Some (z, rest) => Some (PInt z, rest)
       | None => None
       end.

Fixpoint parse_value (fuel : nat) (s : string) : option (pyval * string) :=
  match fuel with
  | O => None
  | S fuel' =>
      match s with
      | String c rest =>
          let n := N_of_ascii c in
          if (n =? 123)%N then
            match skip_ws rest with
            | String "}" rest' => Some (PDict [], rest')
            | rest' => parse_members fuel' rest' []
            end
          else if (n =? 91)%N then
            match skip_ws rest with
            | String "]" rest' => Some (PList [], rest')
            | rest' => parse_elements fuel' rest' []
            end
          else if (n =? 34)%N then
            match scan_string rest [] with
            | Some (text, rest') => Some (PStr text, rest')
            | None => None
            end
          else scan_literal s
      | EmptyString => None
      end
  end
with parse_elements (fuel : nat) (s : string) (acc : list pyval)
  : option (pyval * string) :=
  match fuel with
  | O => None
  | S fuel' =>
      match parse_value fuel' s with
      | Some (v, rest) =>
          match skip_ws rest with
          | String "," rest' => parse_elements fuel' (skip_ws rest') (v :: acc)
          | String "]" rest' => Some (PList (rev (v :: acc)), rest')
          | _ => None
          end
      | None => None
      end
  end
with parse_members (fuel : nat) (s : string) (acc : list (string * pyval))
  : option (pyval * string) :=
  match fuel with
  | O => None
  | S fuel' =>
      match s with
      | String c rest =>
          if (N_of_ascii c =? 34)%N then
            match scan_string rest [] with
            | Some (key, rest1) =>
                match skip_ws rest1 with
                | String ":" rest2 =>
                    match parse_value fuel' (skip_ws rest2) with
                    | Some (v, rest3) =>
                        match skip_ws rest3 with
                        | String "," rest4 =>
                            parse_members fuel' (skip_ws rest4) (dict_set key v acc)
                        | String "}" rest4 => Some (PDict (dict_set key v acc), rest4)
                        | _ => None
                        end
                    | None => None
                    end
                | _ => None
                end
            | None => None
            end
          else None
      | EmptyString => None
      end
  end.

Definition decode (s : string) : exn + pyval :=
  match parse_value (2 * String.length s + 2) (skip_ws s) with
  | Some (v, rest) =>
      match skip_ws rest with
      | EmptyString => inr v
      | String _ _ => inl JSONDecodeError
      end
  | None => inl JSONDecodeError
  end.

End JsonRef.

(** ** What a caller and the table observe *)

Module Observe.
Import Text.

(** The three fixed response texts, character by character. *)
Definition success_text : string :=
  "{" ++ dq ++ "message" ++ dq ++ ": " ++ dq
  ++ "Form submitted successfully!" ++ dq ++ "}".

Definition missing_fields_text : string :=
  "{" ++ dq ++ "error" ++ dq ++ ": " ++ dq
  ++ "Missing required fields: name, email, message" ++ dq ++ "}".

Definition internal_error_text : string :=
  "{" ++ dq ++ "error" ++ dq ++ ": " ++ dq
  ++ "An internal error occurred." ++ dq ++ "}".

(** The shape shared by the three responses. *)
Definition response (status : Z) (text : string) : pyval :=
  PDict
    [("statusCode", PInt status);
     ("headers", PDict [("Content-Type", PStr "application/json");
                        ("Access-Control-Allow-Origin", PStr "*")]);
     ("body", PStr text)].

Definition status_code (resp : pyval) : option pyval :=
  match resp with
  | PDict d => dict_lookup "statusCode" d
  | _ => None
  end.

Definition header (resp : pyval) (name : string) : option pyval :=
  match resp with
  | PDict d =>
      match dict_lookup "headers" d with
      | Some (PDict h) => dict_lookup name h
      | _ => None
      end
  | _ => None
  end.

Definition response_text (resp : pyval) : option pyval :=
  match resp with
  | PDict d => dict_lookup "body" d
  | _ => None
  end.

(** The Submission record of the data model. *)
Definition Submission (id : string) (name email message : pyval)
    (submittedAt : string) : pyval :=
  PDict
    [("id", PStr id);
     ("name", name);
     ("email", email);
     ("message", message);
     ("submittedAt", PStr submittedAt)].

(** The identifier and the timestamp of the invocation, as text. *)
Definition generated_id (env : Env) : string :=
  Uuid.str (Uuid.uuid4 (urandom env)).

Definition captured_timestamp (env : Env) : string :=
  Datetime.isoformat (utcnow env).

Definition is_dict (v : pyval) : bool :=
  match v with
  | PDict _ => true
  | _ => false
  end.

Definition succeeds {A : Type} (r : exn + A) : bool :=
  match r with
  | inr _ => true
  | inl _ => false
  end.

End Observe.
Export Observe.

(** ** Sample invocations *)

Module Sample.

Definition clock : Datetime.datetime :=
  {| Datetime.year := 2024; Datetime.month := 3; Datetime.day := 9;
     Datetime.hour := 7; Datetime.minute := 5; Datetime.second := 0;
     Datetime.microsecond := 1234 |}.

(** An invocation whose table gives [answer] to every item. *)
Definition env_with (answer : exn + unit) : Env :=
  {| json_decode := JsonRef.decode;
     urandom := 0x0123456789abcdef0123456789abcdef;
     utcnow := clock;
     put_item := fun _ => answer |}.

Definition table_up : Env := env_with (inr tt).

Definition table_down : Env := env_with (inl (StoreError "unreachable")).

Definition fresh : World := {| stdout := []; put_item_calls := [] |}.

(** A request whose body is the text [text]. *)
Definition post (text : string) : list (string * pyval) :=
  [("httpMethod", PStr "POST"); ("body", PStr text)].

Definition ana : string :=
  Json.dumps [("name", "Ana"); ("email", "a@x.com"); ("message", "hi")].

Definition ana_no_message : string :=
  Json.dumps [("name", "Ana"); ("email", "a@x.com")].

Definition blank : string :=
  Json.dumps [("name", ""); ("email", ""); ("message", "")].

Definition ana_with_extras : string :=
  Json.dumps [("id", "chosen-by-caller"); ("name", "Ana");
              ("email", "a@x.com"); ("message", "hi");
              ("submittedAt", "1999-12-31T00:00:00"); ("phone", "555")].

Definition field_names : string :=
  "[" ++ Json.encode_str "name" ++ ", " ++ Json.encode_str "email" ++ ", "
  ++ Json.encode_str "message" ++ "]".

End Sample.

(** ** Module initialisation *)

Module Config.

(** [os.environ.get(key, default)] on the variables of the process. *)
Fixpoint environ_get (environ : list (string * string)) (key default : string)
  : string :=
  match environ with
  | [] => default
  | (k, v) :: rest =>
      if String.eqb key k then v else environ_get rest key default
  end.

(** Line 8. *)
Definition TABLE_NAME (environ : list (string * string)) : string :=
  environ_get environ "TABLE_NAME" "ContactFormSubmissions".

(** Lines 10 and 11: the table resource of that name, given what each table
    of the service answers to a put. *)
Definition table (environ : list (string * string))
    (dynamodb : string -> pyval -> exn + unit) : pyval -> exn + unit :=
  dynamodb (TABLE_NAME environ).

End Config.

(** ** The ranges of a datetime *)

(** The bounds the [datetime] type enforces on its fields. *)
Definition in_range (t : Datetime.datetime) : Prop :=
  (1 <= Datetime.year t <= 9999 /\ 1 <= Datetime.month t <= 12
   /\ 1 <= Datetime.day t <= 31 /\ Datetime.hour t <= 23
   /\ Datetime.minute t <= 59 /\ Datetime.second t <= 59
   /\ Datetime.microsecond t <= 999999)%N.

(** * Properties of the handler *)

Arguments Uuid.str : simpl never.
Arguments Uuid.uuid4 : simpl never.
Arguments Datetime.isoformat : simpl never.
Arguments Json.dumps : simpl never.

(** The encoder yields the three fixed texts. *)
Lemma dumps_success :
  Json.dumps [("message", "Form submitted successfully!")] = success_text.
Proof. reflexivity. Qed.

Lemma dumps_missing_fields :
  Json.dumps [("error", "Missing required fields: name, email, message")]
  = missing_fields_text.
Proof. reflexivity. Qed.

Lemma dumps_internal_error :
  Json.dumps [("error", "An internal error occurred.")] = internal_error_text.
Proof. reflexivity. Qed.

(** ** The generated identifier *)

Section Identifier.

Local Open Scope N_scope.

Lemma lor_below_pow2 (a b n : N) :
  a < 2 ^ n -> b < 2 ^ n -> N.lor a b < 2 ^ n.
Proof.
  intros Ha Hb.
  destruct (N.eq_dec a 0) as [-> | Hapos]; [now rewrite N.lor_0_l | ].
  destruct (N.eq_dec b 0) as [-> | Hbpos]; [now rewrite N.lor_0_r | ].
  assert (Hpos : N.lor a b <> 0).
  { intros H. apply N.lor_eq_0_l in H. contradiction. }
  apply N.log2_lt_pow2; [lia | ].
  rewrite N.log2_lor. apply N.max_lub_lt; apply N.log2_lt_pow2; lia.
Qed.

Lemma ldiff_below (a b bound : N) : a < bound -> N.ldiff a b < bound.
Proof.
  intros Ha. apply N.le_lt_trans with (m := a); [apply N.ldiff_le_l | exact Ha].
Qed.

(** The identifier fits in 128 bits, whatever the entropy. *)
Lemma uuid4_below_2_128 (random : N) : Uuid.uuid4 random < 2 ^ 128.
Proof.
  unfold Uuid.uuid4.
  apply lor_below_pow2; [ | reflexivity].
  apply ldiff_below, lor_below_pow2; [ | reflexivity].
  apply ldiff_below, N.mod_lt. discriminate.
Qed.

(** Its version is 4 and its variant is the RFC 4122 one. *)
Lemma uuid4_version (random : N) :
  N.land (N.shiftr (Uuid.uuid4 random) 76) 0xf = 4.
Proof.
  unfold Uuid.uuid4. apply N.bits_inj; intros i.
  rewrite N.land_spec, N.shiftr_spec', N.lor_spec, N.ldiff_spec, N.lor_spec,
    N.ldiff_spec.
  destruct (N.lt_ge_cases i 4) as [Hlow | Hhigh].
  - assert (Hi : i = 0 \/ i = 1 \/ i = 2 \/ i = 3) by lia.
    destruct Hi as [-> | [-> | [-> | ->]]]; cbn;
      now rewrite ?andb_false_r, ?orb_true_r.
  - replace (N.testbit 0xf i) with false; [rewrite andb_false_r | ].
    + symmetry. apply N.bits_above_log2. cbn. lia.
    + symmetry. apply N.bits_above_log2. cbn. lia.
Qed.

End Identifier.

(** The text of an identifier has 36 characters. *)
Lemma hex_fixed_length (width : nat) (n : N) (acc : string) :
  String.length (Text.hex_fixed width n acc) = width + String.length acc.
Proof.
  revert n acc. induction width as [ | width IH]; intros n acc; cbn.
  - reflexivity.
  - rewrite IH. cbn. lia.
Qed.

Lemma append_length (s t : string) :
  String.length (s ++ t) = String.length s + String.length t.
Proof. induction s as [ | c s IH]; cbn; [reflexivity | now rewrite IH]. Qed.

Lemma substring_length (s : string) (n m : nat) :
  n + m <= String.length s -> String.length (substring n m s) = m.
Proof.
  revert n m. induction s as [ | c s IH]; intros n m H; cbn in H.
  - assert (n = 0) by lia. assert (m = 0) by lia. subst. reflexivity.
  - destruct n as [ | n]; destruct m as [ | m]; cbn; try reflexivity.
    + rewrite IH; [reflexivity | lia].
    + apply IH. lia.
    + apply IH. lia.
Qed.

Lemma uuid_str_length (u : N) : String.length (Uuid.str u) = 36.
Proof.
  unfold Uuid.str.
  assert (H : String.length (Text.hex_fixed 32 u EmptyString) = 32)
    by (rewrite hex_fixed_length; reflexivity).
  repeat rewrite append_length. rewrite !substring_length by lia.
  reflexivity.
Qed.

(** Unfolds the monad, keeping the encoder and the generators folded. *)
Ltac run_handler :=
  cbv beta iota zeta delta
    [lambda_handler try_except try_block except_block
     bind lift ret print json_loads table_put_item];
  rewrite ?dumps_success, ?dumps_missing_fields, ?dumps_internal_error.

Section Runs.

Variable env : Env.

(** The presence test on a dict is the conjunction of three key tests. *)
Lemma all_in_dict (d : list (string * pyval)) :
  all_in required_fields (PDict d)
  = inr (dict_mem "name" d && dict_mem "email" d && dict_mem "message" d).
Proof.
  unfold required_fields; cbn [all_in contains].
  destruct (dict_mem "name" d), (dict_mem "email" d), (dict_mem "message" d);
    reflexivity.
Qed.

Lemma dict_mem_lookup (k : string) (d : list (string * pyval)) (v : pyval) :
  dict_lookup k d = Some v -> dict_mem k d = true.
Proof. unfold dict_mem; intros ->; reflexivity. Qed.

Lemma dict_mem_false (k : string) (d : list (string * pyval)) :
  dict_mem k d = false <-> dict_lookup k d = None.
Proof.
  unfold dict_mem; destruct (dict_lookup k d); split; congruence.
Qed.

(** The handler is the try block, with any exception turned into the
    fixed 500 response. *)
Lemma lambda_handler_cases (event context : pyval) (w : World) :
  lambda_handler env event context w
  = match try_block env event
            {| stdout := stdout w ++ [LogReceived event];
               put_item_calls := put_item_calls w |} with
    | (inl e, w') =>
        (inr (response 500 internal_error_text),
         {| stdout := stdout w' ++ [LogError e];
            put_item_calls := put_item_calls w' |})
    | (inr resp, w') => (inr resp, w')
    end.
Proof. reflexivity. Qed.

(** A body that decodes to a dict with the three keys: the record is
    passed to the table and the table's answer decides the outcome. *)
Lemma try_block_stores (ev d : list (string * pyval)) (text : string)
    (name email message : pyval) (w : World) :
  dict_lookup "body" ev = Some (PStr text) ->
  json_decode env text = inr (PDict d) ->
  dict_lookup "name" d = Some name ->
  dict_lookup "email" d = Some email ->
  dict_lookup "message" d = Some message ->
  let item := Submission (generated_id env) name email message
                (captured_timestamp env) in
  try_block env (PDict ev) w
  = match put_item env item with
    | inl e =>
        (inl e, {| stdout := stdout w;
                   put_item_calls := put_item_calls w ++ [item] |})
    | inr _ =>
        (inr (response 200 success_text),
         {| stdout := stdout w ++ [LogSaved item];
            put_item_calls := put_item_calls w ++ [item] |})
    end.
Proof.
  intros Hbody Hdec Hn He Hm item.
  run_handler. cbv beta iota delta [Py.get]. rewrite Hbody; cbv beta iota.
  rewrite Hdec; cbv beta iota. rewrite all_in_dict.
  rewrite (dict_mem_lookup _ _ _ Hn), (dict_mem_lookup _ _ _ He),
    (dict_mem_lookup _ _ _ Hm).
  cbn [andb negb getitem]. rewrite Hn, He, Hm.
  fold (generated_id env) (captured_timestamp env).
  fold (Submission (generated_id env) name email message (captured_timestamp env)).
  fold item. cbn [stdout put_item_calls].
  destruct (put_item env item); reflexivity.
Qed.

(** A body that decodes to a dict lacking one of the three keys. *)
Lemma try_block_missing (ev d : list (string * pyval)) (text : string)
    (w : World) :
  dict_lookup "body" ev = Some (PStr text) ->
  json_decode env text = inr (PDict d) ->
  dict_mem "name" d && dict_mem "email" d && dict_mem "message" d = false ->
  try_block env (PDict ev) w
  = (inr (response 400 missing_fields_text),
     {| stdout := stdout w ++ [LogValidationFailed];
        put_item_calls := put_item_calls w |}).
Proof.
  intros Hbody Hdec Hmiss.
  run_handler. cbv beta iota delta [Py.get]. rewrite Hbody; cbv beta iota.
  rewrite Hdec; cbv beta iota. rewrite all_in_dict, Hmiss.
  reflexivity.
Qed.

(** A body whose decoding raises. *)
Lemma try_block_decode_raises (ev : list (string * pyval)) (text : string)
    (e : exn) (w : World) :
  dict_lookup "body" ev = Some (PStr text) ->
  json_decode env text = inl e ->
  try_block env (PDict ev) w = (inl e, w).
Proof.
  intros Hbody Hdec. run_handler. cbv beta iota delta [Py.get]. rewrite Hbody; cbv beta iota.
  rewrite Hdec. reflexivity.
Qed.

(** A body field that holds something other than a str. *)
Lemma try_block_body_not_str (ev : list (string * pyval)) (raw : pyval)
    (w : World) :
  dict_lookup "body" ev = Some raw ->
  (forall text, raw <> PStr text) ->
  try_block env (PDict ev) w = (inl TypeError, w).
Proof.
  intros Hbody Hraw. run_handler. cbv beta iota delta [Py.get]. rewrite Hbody; cbv beta iota.
  destruct raw; try reflexivity. now elim (Hraw s).
Qed.

(** An event that is not a dict has no [get]. *)
Lemma try_block_event_not_dict (event : pyval) (w : World) :
  is_dict event = false ->
  try_block env event w = (inl AttributeError, w).
Proof. destruct event; intros H; try discriminate H; reflexivity. Qed.

(** The try block reads the event only through [event.get('body', '{}')]. *)
Lemma try_block_reads_body (event1 event2 : pyval) (w : World) :
  Py.get event1 "body" (PStr "{}") = Py.get event2 "body" (PStr "{}") ->
  try_block env event1 w = try_block env event2 w.
Proof.
  intros H. cbv beta delta [try_block]. rewrite H. reflexivity.
Qed.

(** Subscripting anything but a dict with a str raises. *)
Lemma getitem_not_dict (v : pyval) (key : string) :
  is_dict v = false -> getitem v key = inl TypeError.
Proof. destruct v; intros H; try discriminate H; reflexivity. Qed.

(** A body that decodes to something other than a dict: either an
    exception or the 400 response, and the table is not called. *)
Lemma try_block_not_object (ev : list (string * pyval)) (text : string)
    (v : pyval) (w : World) :
  dict_lookup "body" ev = Some (PStr text) ->
  json_decode env text = inr v ->
  is_dict v = false ->
  (exists e, try_block env (PDict ev) w = (inl e, w))
  \/ try_block env (PDict ev) w
     = (inr (response 400 missing_fields_text),
        {| stdout := stdout w ++ [LogValidationFailed];
           put_item_calls := put_item_calls w |}).
Proof.
  intros Hbody Hdec Hv. run_handler. cbv beta iota delta [Py.get]. rewrite Hbody; cbv beta iota.
  rewrite Hdec; cbv beta iota.
  destruct (all_in required_fields v) as [e | [ | ]]; cbv beta iota.
  - left; now exists e.
  - left; exists TypeError. cbn [negb].
    rewrite (getitem_not_dict v "name" Hv). reflexivity.
  - right; reflexivity.
Qed.

(** Every run of the try block ends in one of three ways: an exception,
    the 400 response with the table untouched, or the 200 response after
    one accepted call to the table. *)
Lemma try_block_outcomes (event : pyval) (w : World) :
  (exists e w', try_block env event w = (inl e, w'))
  \/ try_block env event w
     = (inr (response 400 missing_fields_text),
        {| stdout := stdout w ++ [LogValidationFailed];
           put_item_calls := put_item_calls w |})
  \/ (exists name email message,
        let item := Submission (generated_id env) name email message
                      (captured_timestamp env) in
        put_item env item = inr tt
        /\ try_block env event w
           = (inr (response 200 success_text),
              {| stdout := stdout w ++ [LogSaved item];
                 put_item_calls := put_item_calls w ++ [item] |})).
Proof.
  run_handler.
  destruct (Py.get event "body" (PStr "{}")) as [e | raw]; cbv beta iota;
    [left; do 2 eexists; reflexivity | ].
  destruct raw; try (left; do 2 eexists; reflexivity).
  destruct (json_decode env s) as [e | body]; cbv beta iota;
    [left; do 2 eexists; reflexivity | ].
  destruct (all_in required_fields body) as [e | [ | ]]; cbv beta iota;
    [left; do 2 eexists; reflexivity | | right; left; reflexivity].
  cbn [negb].
  destruct (getitem body "name") as [e | name];
    [left; do 2 eexists; reflexivity | ].
  destruct (getitem body "email") as [e | email];
    [left; do 2 eexists; reflexivity | ].
  destruct (getitem body "message") as [e | message];
    [left; do 2 eexists; reflexivity | ].
  fold (generated_id env) (captured_timestamp env).
  fold (Submission (generated_id env) name email message
          (captured_timestamp env)).
  destruct (put_item env _) as [e | []] eqn:Hput;
    [left; do 2 eexists; reflexivity | ].
  right; right. exists name, email, message. split; [exact Hput | reflexivity].
Qed.

End Runs.

(** ** The success path *)

(** C1: a body that decodes to an object holding name, email and message,
    with a table that accepts the record, yields the 200 response with the
    success text and exactly one call to the table; the record passed holds
    the three input values, the text of the generated 128-bit identifier
    and the text of the clock reading. *)
Theorem valid_submission_is_stored
    (env : Env) (ev d : list (string * pyval)) (context : pyval) (w : World)
    (text : string) (name email message : pyval) :
  dict_lookup "body" ev = Some (PStr text) ->
  json_decode env text = inr (PDict d) ->
  dict_lookup "name" d = Some name ->
  dict_lookup "email" d = Some email ->
  dict_lookup "message" d = Some message ->
  put_item env (Submission (Uuid.str (Uuid.uuid4 (urandom env)))
                  name email message (Datetime.isoformat (utcnow env)))
  = inr tt ->
  fst (lambda_handler env (PDict ev) context w)
  = inr (response 200 success_text)
  /\ put_item_calls (snd (lambda_handler env (PDict ev) context w))
     = (put_item_calls w
        ++ [Submission (Uuid.str (Uuid.uuid4 (urandom env)))
              name email message (Datetime.isoformat (utcnow env))])%list
  /\ (Uuid.uuid4 (urandom env) < 2 ^ 128)%N.
Proof.
  intros Hbody Hdec Hn He Hm Hput.
  rewrite lambda_handler_cases.
  rewrite (try_block_stores env ev d text name email message _
             Hbody Hdec Hn He Hm).
  unfold generated_id, captured_timestamp. rewrite Hput.
  split; [reflexivity | split; [reflexivity | apply uuid4_below_2_128]].
Qed.

Lemma valid_submission_is_stored_witness :
  fst (lambda_handler Sample.table_up (PDict (Sample.post Sample.ana)) PNone
         Sample.fresh)
  = inr (response 200 success_text)
  /\ put_item_calls
       (snd (lambda_handler Sample.table_up (PDict (Sample.post Sample.ana))
               PNone Sample.fresh))
     = [Submission "01234567-89ab-4def-8123-456789abcdef"
          (PStr "Ana") (PStr "a@x.com") (PStr "hi")
          "2024-03-09T07:05:00.001234"]
  /\ (Uuid.uuid4 (urandom Sample.table_up) < 2 ^ 128)%N.
Proof.
  apply (valid_submission_is_stored Sample.table_up (Sample.post Sample.ana)
           [("name", PStr "Ana"); ("email", PStr "a@x.com");
            ("message", PStr "hi")]
           PNone Sample.fresh Sample.ana
           (PStr "Ana") (PStr "a@x.com") (PStr "hi"));
    reflexivity.
Defined.

(** ** The validation path *)

(** C2: a body that decodes to an object lacking name, email or message
    yields the 400 response with the missing-fields text, and the table is
    not called. *)
Theorem missing_field_is_rejected
    (env : Env) (ev d : list (string * pyval)) (context : pyval) (w : World)
    (text : string) :
  dict_lookup "body" ev = Some (PStr text) ->
  json_decode env text = inr (PDict d) ->
  dict_lookup "name" d = None \/ dict_lookup "email" d = None
  \/ dict_lookup "message" d = None ->
  fst (lambda_handler env (PDict ev) context w)
  = inr (response 400 missing_fields_text)
  /\ put_item_calls (snd (lambda_handler env (PDict ev) context w))
     = put_item_calls w.
Proof.
  intros Hbody Hdec Hmiss.
  rewrite lambda_handler_cases.
  rewrite (try_block_missing env ev d text _ Hbody Hdec).
  - split; reflexivity.
  - destruct Hmiss as [H | [H | H]]; apply dict_mem_false in H; rewrite H;
      rewrite ?andb_false_r; reflexivity.
Qed.

Lemma missing_field_is_rejected_witness :
  fst (lambda_handler Sample.table_up
         (PDict (Sample.post Sample.ana_no_message)) PNone Sample.fresh)
  = inr (response 400 missing_fields_text)
  /\ put_item_calls
       (snd (lambda_handler Sample.table_up
               (PDict (Sample.post Sample.ana_no_message)) PNone Sample.fresh))
     = [].
Proof.
  apply (missing_field_is_rejected Sample.table_up
           (Sample.post Sample.ana_no_message)
           [("name", PStr "Ana"); ("email", PStr "a@x.com")]
           PNone Sample.fresh Sample.ana_no_message);
    [reflexivity | reflexivity | right; right; reflexivity].
Defined.

(** ** The failure path *)

(** C3: when decoding the body raises, or the table raises on the record,
    or the try block raises for any other reason, the handler returns the
    500 response whose text is the fixed internal-error text and whose
    headers carry the CORS header; the response is the same for every
    exception. *)
Theorem failure_gives_fixed_500
    (env : Env) (event context : pyval) (w : World) :
  (exists ev text e,
      event = PDict ev
      /\ dict_lookup "body" ev = Some (PStr text)
      /\ json_decode env text = inl e)
  \/ (exists ev text d name email message e,
        event = PDict ev
        /\ dict_lookup "body" ev = Some (PStr text)
        /\ json_decode env text = inr (PDict d)
        /\ dict_lookup "name" d = Some name
        /\ dict_lookup "email" d = Some email
        /\ dict_lookup "message" d = Some message
        /\ put_item env (Submission (Uuid.str (Uuid.uuid4 (urandom env)))
                           name email message
                           (Datetime.isoformat (utcnow env)))
           = inl e)
  \/ (exists e w',
        try_block env event
          {| stdout := stdout w ++ [LogReceived event];
             put_item_calls := put_item_calls w |}
        = (inl e, w')) ->
  fst (lambda_handler env event context w)
  = inr (response 500 internal_error_text)
  /\ status_code (response 500 internal_error_text) = Some (PInt 500)
  /\ response_text (response 500 internal_error_text)
     = Some (PStr internal_error_text)
  /\ header (response 500 internal_error_text) "Access-Control-Allow-Origin"
     = Some (PStr "*").
Proof.
  intros Hcause.
  assert (Hraise : exists e w',
             try_block env event
               {| stdout := stdout w ++ [LogReceived event];
                  put_item_calls := put_item_calls w |}
             = (inl e, w')).
  { destruct Hcause as [Hdecode | [Hstore | Hother]].
    - destruct Hdecode as (ev & text & e & -> & Hbody & Hdec).
      exists e; eexists. now apply try_block_decode_raises with (text := text).
    - destruct Hstore
        as (ev & text & d & name & email & message & e
            & -> & Hbody & Hdec & Hn & He & Hm & Hput).
      exists e; eexists.
      rewrite (try_block_stores env ev d text name email message _
                 Hbody Hdec Hn He Hm).
      unfold generated_id, captured_timestamp. rewrite Hput. reflexivity.
    - exact Hother. }
  destruct Hraise as (e & w' & Hrun).
  rewrite lambda_handler_cases, Hrun.
  repeat split.
Qed.

Lemma failure_gives_fixed_500_witness :
  fst (lambda_handler Sample.table_up (PDict (Sample.post "name=Ana")) PNone
         Sample.fresh)
  = inr (response 500 internal_error_text)
  /\ status_code (response 500 internal_error_text) = Some (PInt 500)
  /\ response_text (response 500 internal_error_text)
     = Some (PStr internal_error_text)
  /\ header (response 500 internal_error_text) "Access-Control-Allow-Origin"
     = Some (PStr "*").
Proof.
  apply (failure_gives_fixed_500 Sample.table_up
           (PDict (Sample.post "name=Ana")) PNone Sample.fresh).
  left. exists (Sample.post "name=Ana"), "name=Ana", JSONDecodeError.
  repeat split.
Defined.

(** ** An absent body *)

(** C4: an event without a body field is handled as one whose body is the
    empty object: the 400 response with the missing-fields text and no call
    to the table, the same response and the same calls as for any request
    whose body decodes to the empty object. *)
Theorem absent_body_is_empty_object
    (env : Env) (ev : list (string * pyval)) (context : pyval) (w : World) :
  dict_lookup "body" ev = None ->
  json_decode env "{}" = inr (PDict []) ->
  fst (lambda_handler env (PDict ev) context w)
  = inr (response 400 missing_fields_text)
  /\ put_item_calls (snd (lambda_handler env (PDict ev) context w))
     = put_item_calls w
  /\ forall ev' text' context',
       dict_lookup "body" ev' = Some (PStr text') ->
       json_decode env text' = inr (PDict []) ->
       fst (lambda_handler env (PDict ev') context' w)
       = fst (lambda_handler env (PDict ev) context w)
       /\ put_item_calls (snd (lambda_handler env (PDict ev') context' w))
          = put_item_calls (snd (lambda_handler env (PDict ev) context w)).
Proof.
  intros Habsent Hempty.
  assert (Hrun : forall w0,
             try_block env (PDict ev) w0
             = (inr (response 400 missing_fields_text),
                {| stdout := stdout w0 ++ [LogValidationFailed];
                   put_item_calls := put_item_calls w0 |})).
  { intros w0.
    rewrite (try_block_reads_body env (PDict ev) (PDict [("body", PStr "{}")])).
    - now apply try_block_missing with (text := "{}") (d := []).
    - cbn. rewrite Habsent. reflexivity. }
  rewrite !lambda_handler_cases, !Hrun. cbn [fst snd put_item_calls].
  repeat split.
  - rewrite lambda_handler_cases.
    rewrite (try_block_missing env ev' [] text'); auto.
  - rewrite lambda_handler_cases.
    rewrite (try_block_missing env ev' [] text'); auto.
Qed.

Lemma absent_body_is_empty_object_witness :
  fst (lambda_handler Sample.table_up (PDict [("httpMethod", PStr "POST")])
         PNone Sample.fresh)
  = inr (response 400 missing_fields_text)
  /\ put_item_calls
       (snd (lambda_handler Sample.table_up
               (PDict [("httpMethod", PStr "POST")]) PNone Sample.fresh))
     = []
  /\ fst (lambda_handler Sample.table_up (PDict (Sample.post " { } "))
            (PBool true) Sample.fresh)
     = fst (lambda_handler Sample.table_up
              (PDict [("httpMethod", PStr "POST")]) PNone Sample.fresh).
Proof.
  destruct (absent_body_is_empty_object Sample.table_up
              [("httpMethod", PStr "POST")] PNone Sample.fresh
              eq_refl eq_refl) as (Hresp & Hcalls & Hsame).
  split; [exact Hresp | split; [exact Hcalls | ]].
  exact (proj1 (Hsame (Sample.post " { } ") " { } " (PBool true)
                  eq_refl eq_refl)).
Defined.

(** ** Headers *)

(** C5: whatever the event, the handler returns a response, its status is
    200, 400 or 500, and it carries both the Content-Type header and the
    CORS header. *)
Theorem every_response_has_both_headers
    (env : Env) (event context : pyval) (w : World) :
  exists resp,
    fst (lambda_handler env event context w) = inr resp
    /\ (status_code resp = Some (PInt 200)
        \/ status_code resp = Some (PInt 400)
        \/ status_code resp = Some (PInt 500))
    /\ header resp "Content-Type" = Some (PStr "application/json")
    /\ header resp "Access-Control-Allow-Origin" = Some (PStr "*").
Proof.
  rewrite lambda_handler_cases.
  destruct (try_block_outcomes env event
              {| stdout := stdout w ++ [LogReceived event];
                 put_item_calls := put_item_calls w |})
    as [(e & w' & Hrun) | [Hrun | (name & email & message & _ & Hrun)]];
    rewrite Hrun; eexists; (split; [reflexivity | ]);
    (split; [ | split; reflexivity]); auto.
Qed.

(** ** Presence is the only check *)

(** C6: when the three keys are present the handler never answers 400,
    whatever the values are; with three empty strs and a table that accepts
    the record, it answers 200 and the record holds the empty strs. *)
Theorem empty_strings_pass_validation
    (env : Env) (ev d : list (string * pyval)) (context : pyval) (w : World)
    (text : string) (name email message : pyval) :
  dict_lookup "body" ev = Some (PStr text) ->
  json_decode env text = inr (PDict d) ->
  dict_lookup "name" d = Some name ->
  dict_lookup "email" d = Some email ->
  dict_lookup "message" d = Some message ->
  (exists resp,
      fst (lambda_handler env (PDict ev) context w) = inr resp
      /\ status_code resp <> Some (PInt 400))
  /\ (name = PStr "" -> email = PStr "" -> message = PStr "" ->
      put_item env (Submission (Uuid.str (Uuid.uuid4 (urandom env)))
                      (PStr "") (PStr "") (PStr "")
                      (Datetime.isoformat (utcnow env)))
      = inr tt ->
      fst (lambda_handler env (PDict ev) context w)
      = inr (response 200 success_text)
      /\ put_item_calls (snd (lambda_handler env (PDict ev) context w))
         = (put_item_calls w
            ++ [Submission (Uuid.str (Uuid.uuid4 (urandom env)))
                  (PStr "") (PStr "") (PStr "")
                  (Datetime.isoformat (utcnow env))])%list).
Proof.
  intros Hbody Hdec Hn He Hm.
  rewrite lambda_handler_cases.
  rewrite (try_block_stores env ev d text name email message _
             Hbody Hdec Hn He Hm).
  unfold generated_id, captured_timestamp.
  split.
  - destruct (put_item env _) as [e | u]; eexists;
      (split; [reflexivity | discriminate]).
  - intros -> -> -> Hput. rewrite Hput. split; reflexivity.
Qed.

Lemma empty_strings_pass_validation_witness :
  (exists resp,
      fst (lambda_handler Sample.table_up (PDict (Sample.post Sample.blank))
             PNone Sample.fresh) = inr resp
      /\ status_code resp <> Some (PInt 400))
  /\ fst (lambda_handler Sample.table_up (PDict (Sample.post Sample.blank))
            PNone Sample.fresh)
     = inr (response 200 success_text)
  /\ put_item_calls
       (snd (lambda_handler Sample.table_up (PDict (Sample.post Sample.blank))
               PNone Sample.fresh))
     = [Submission "01234567-89ab-4def-8123-456789abcdef"
          (PStr "") (PStr "") (PStr "") "2024-03-09T07:05:00.001234"].
Proof.
  destruct (empty_strings_pass_validation Sample.table_up
              (Sample.post Sample.blank)
              [("name", PStr ""); ("email", PStr ""); ("message", PStr "")]
              PNone Sample.fresh Sample.blank (PStr "") (PStr "") (PStr "")
              eq_refl eq_refl eq_refl eq_refl eq_refl)
    as (Hnot400 & H200).
  split; [exact Hnot400 | exact (H200 eq_refl eq_refl eq_refl eq_refl)].
Defined.

(** ** Extra keys *)

(** C7: keys of the body other than name, email and message do not cause
    a rejection and do not reach the table: on the success path the record
    has exactly the keys id, name, email, message and submittedAt, its id is
    the generated identifier and its submittedAt the clock reading, whatever
    the body holds under those or any other keys. *)
Theorem extra_keys_are_not_persisted
    (env : Env) (ev d : list (string * pyval)) (context : pyval) (w : World)
    (text : string) (name email message : pyval) :
  dict_lookup "body" ev = Some (PStr text) ->
  json_decode env text = inr (PDict d) ->
  dict_lookup "name" d = Some name ->
  dict_lookup "email" d = Some email ->
  dict_lookup "message" d = Some message ->
  put_item env (Submission (Uuid.str (Uuid.uuid4 (urandom env)))
                  name email message (Datetime.isoformat (utcnow env)))
  = inr tt ->
  fst (lambda_handler env (PDict ev) context w)
  = inr (response 200 success_text)
  /\ exists item,
       put_item_calls (snd (lambda_handler env (PDict ev) context w))
       = (put_item_calls w ++ [PDict item])%list
       /\ dict_keys item = ["id"; "name"; "email"; "message"; "submittedAt"]
       /\ dict_lookup "id" item
          = Some (PStr (Uuid.str (Uuid.uuid4 (urandom env))))
       /\ dict_lookup "name" item = Some name
       /\ dict_lookup "email" item = Some email
       /\ dict_lookup "message" item = Some message
       /\ dict_lookup "submittedAt" item
          = Some (PStr (Datetime.isoformat (utcnow env))).
Proof.
  intros Hbody Hdec Hn He Hm Hput.
  rewrite lambda_handler_cases.
  rewrite (try_block_stores env ev d text name email message _
             Hbody Hdec Hn He Hm).
  unfold generated_id, captured_timestamp. rewrite Hput.
  split; [reflexivity | ].
  eexists. split; [reflexivity | ]. repeat split.
Qed.

Lemma extra_keys_are_not_persisted_witness :
  fst (lambda_handler Sample.table_up
         (PDict (Sample.post Sample.ana_with_extras)) PNone Sample.fresh)
  = inr (response 200 success_text)
  /\ exists item,
       put_item_calls
         (snd (lambda_handler Sample.table_up
                 (PDict (Sample.post Sample.ana_with_extras)) PNone
                 Sample.fresh))
       = [PDict item]
       /\ dict_keys item = ["id"; "name"; "email"; "message"; "submittedAt"]
       /\ dict_lookup "id" item
          = Some (PStr "01234567-89ab-4def-8123-456789abcdef")
       /\ dict_lookup "name" item = Some (PStr "Ana")
       /\ dict_lookup "email" item = Some (PStr "a@x.com")
       /\ dict_lookup "message" item = Some (PStr "hi")
       /\ dict_lookup "submittedAt" item
          = Some (PStr "2024-03-09T07:05:00.001234").
Proof.
  apply (extra_keys_are_not_persisted Sample.table_up
           (Sample.post Sample.ana_with_extras)
           [("id", PStr "chosen-by-caller"); ("name", PStr "Ana");
            ("email", PStr "a@x.com"); ("message", PStr "hi");
            ("submittedAt", PStr "1999-12-31T00:00:00"); ("phone", PStr "555")]
           PNone Sample.fresh Sample.ana_with_extras
           (PStr "Ana") (PStr "a@x.com") (PStr "hi"));
    reflexivity.
Defined.

(** ** Bodies that are not objects *)

(** C8: a body that decodes to a value other than an object never yields
    the 200 response and never reaches the table; when it decodes to the
    list of the three field names, the presence test passes, the
    subscript raises, and the response is 500. *)
Theorem non_object_body_is_never_stored
    (env : Env) (ev : list (string * pyval)) (context : pyval) (w : World)
    (text : string) (v : pyval) :
  dict_lookup "body" ev = Some (PStr text) ->
  json_decode env text = inr v ->
  is_dict v = false ->
  (exists resp,
      fst (lambda_handler env (PDict ev) context w) = inr resp
      /\ status_code resp <> Some (PInt 200))
  /\ put_item_calls (snd (lambda_handler env (PDict ev) context w))
     = put_item_calls w
  /\ (v = PList [PStr "name"; PStr "email"; PStr "message"] ->
      all_in required_fields v = inr true
      /\ getitem v "name" = inl TypeError
      /\ fst (lambda_handler env (PDict ev) context w)
         = inr (response 500 internal_error_text)).
Proof.
  intros Hbody Hdec Hv.
  rewrite lambda_handler_cases.
  split; [ | split].
  - destruct (try_block_not_object env ev text v
                {| stdout := stdout w ++ [LogReceived (PDict ev)];
                   put_item_calls := put_item_calls w |} Hbody Hdec Hv)
      as [(e & Hrun) | Hrun]; rewrite Hrun; eexists;
      (split; [reflexivity | discriminate]).
  - destruct (try_block_not_object env ev text v
                {| stdout := stdout w ++ [LogReceived (PDict ev)];
                   put_item_calls := put_item_calls w |} Hbody Hdec Hv)
      as [(e & Hrun) | Hrun]; rewrite Hrun; reflexivity.
  - intros ->. split; [reflexivity | split; [reflexivity | ]].
    run_handler. cbv beta iota delta [Py.get]. rewrite Hbody; cbv beta iota.
    rewrite Hdec. reflexivity.
Qed.

Lemma non_object_body_is_never_stored_witness :
  (exists resp,
      fst (lambda_handler Sample.table_up
             (PDict (Sample.post Sample.field_names)) PNone Sample.fresh)
      = inr resp
      /\ status_code resp <> Some (PInt 200))
  /\ put_item_calls
       (snd (lambda_handler Sample.table_up
               (PDict (Sample.post Sample.field_names)) PNone Sample.fresh))
     = []
  /\ fst (lambda_handler Sample.table_up
            (PDict (Sample.post Sample.field_names)) PNone Sample.fresh)
     = inr (response 500 internal_error_text).
Proof.
  destruct (non_object_body_is_never_stored Sample.table_up
              (Sample.post Sample.field_names) PNone Sample.fresh
              Sample.field_names
              (PList [PStr "name"; PStr "email"; PStr "message"])
              eq_refl eq_refl eq_refl)
    as (Hnot200 & Hcalls & Hlist).
  split; [exact Hnot200 | split; [exact Hcalls | ]].
  exact (proj2 (proj2 (Hlist eq_refl))).
Defined.

(** ** A null body *)

(** C9: an event whose body field holds None makes the decoding raise:
    the response is the 500 response and the table is not called, whereas
    an event without the field gets the 400 response. *)
Theorem null_body_gives_500
    (env : Env) (ev : list (string * pyval)) (context : pyval) (w : World) :
  dict_lookup "body" ev = Some PNone ->
  fst (lambda_handler env (PDict ev) context w)
  = inr (response 500 internal_error_text)
  /\ put_item_calls (snd (lambda_handler env (PDict ev) context w))
     = put_item_calls w
  /\ (json_decode env "{}" = inr (PDict []) ->
      forall ev' context',
        dict_lookup "body" ev' = None ->
        fst (lambda_handler env (PDict ev') context' w)
        = inr (response 400 missing_fields_text)).
Proof.
  intros Hbody.
  rewrite lambda_handler_cases.
  rewrite (try_block_body_not_str env ev PNone _ Hbody) by discriminate.
  split; [reflexivity | split; [reflexivity | ]].
  intros Hempty ev' context' Habsent.
  rewrite lambda_handler_cases.
  rewrite (try_block_reads_body env (PDict ev') (PDict [("body", PStr "{}")])).
  - rewrite (try_block_missing env [("body", PStr "{}")] [] "{}"); auto.
  - cbn. rewrite Habsent. reflexivity.
Qed.

Lemma null_body_gives_500_witness :
  fst (lambda_handler Sample.table_up (PDict [("body", PNone)]) PNone
         Sample.fresh)
  = inr (response 500 internal_error_text)
  /\ put_item_calls
       (snd (lambda_handler Sample.table_up (PDict [("body", PNone)]) PNone
               Sample.fresh))
     = []
  /\ fst (lambda_handler Sample.table_up (PDict []) PNone Sample.fresh)
     = inr (response 400 missing_fields_text).
Proof.
  destruct (null_body_gives_500 Sample.table_up [("body", PNone)] PNone
              Sample.fresh eq_refl)
    as (Hresp & Hcalls & Habsent).
  split; [exact Hresp | split; [exact Hcalls | ]].
  exact (Habsent eq_refl [] PNone eq_refl).
Defined.

(** ** What the response depends on *)

(** C10: two invocations with the same decoder, the same entropy, the same
    clock reading and a table that accepts the same items return the same
    response as soon as the body fields of their events are equal; the rest
    of the event, the context and the effects made before play no part. *)
Theorem response_depends_only_on_body
    (env1 env2 : Env) (ev1 ev2 : list (string * pyval))
    (context1 context2 : pyval) (w1 w2 : World) :
  (forall text, json_decode env1 text = json_decode env2 text) ->
  urandom env1 = urandom env2 ->
  utcnow env1 = utcnow env2 ->
  (forall item,
      succeeds (put_item env1 item) = succeeds (put_item env2 item)) ->
  dict_lookup "body" ev1 = dict_lookup "body" ev2 ->
  fst (lambda_handler env1 (PDict ev1) context1 w1)
  = fst (lambda_handler env2 (PDict ev2) context2 w2).
Proof.
  intros Hdec Hrand Hnow Hput Hbody.
  assert (Hget : Py.get (PDict ev1) "body" (PStr "{}")
                 = Py.get (PDict ev2) "body" (PStr "{}"))
    by (cbn [Py.get]; now rewrite Hbody).
  run_handler. rewrite Hget.
  destruct (Py.get (PDict ev2) "body" (PStr "{}")) as [e | raw];
    [reflexivity | ].
  destruct raw; try reflexivity.
  rewrite Hdec.
  destruct (json_decode env2 s) as [e | body]; [reflexivity | ].
  destruct (all_in required_fields body) as [e | [ | ]]; try reflexivity.
  cbn [negb].
  destruct (getitem body "name"); [reflexivity | ].
  destruct (getitem body "email"); [reflexivity | ].
  destruct (getitem body "message"); [reflexivity | ].
  rewrite Hrand, Hnow.
  match goal with
  | |- context [put_item env2 ?item] => specialize (Hput item)
  end.
  destruct (put_item env1 _), (put_item env2 _);
    try discriminate Hput; reflexivity.
Qed.

Lemma response_depends_only_on_body_witness :
  fst (lambda_handler Sample.table_up (PDict (Sample.post Sample.ana)) PNone
         Sample.fresh)
  = fst (lambda_handler Sample.table_up
           (PDict [("body", PStr Sample.ana); ("httpMethod", PStr "PUT");
                   ("path", PStr "/contact")])
           (PStr "ctx")
           {| stdout := [LogValidationFailed]; put_item_calls := [PNone] |}).
Proof.
  apply (response_depends_only_on_body Sample.table_up Sample.table_up);
    reflexivity.
Defined.

(** * Further properties of the handler *)

Section Traces.

Variable env : Env.

Lemma getitem_inr (v : pyval) (key : string) (x : pyval) :
  getitem v key = inr x ->
  exists d, v = PDict d /\ dict_lookup key d = Some x.
Proof.
  destruct v; cbn; try discriminate.
  destruct (dict_lookup key d) eqn:Hfound; [ | discriminate].
  intros [= <-]. now exists d.
Qed.

(** Every run of the try block, with what led to it: an exception with at
    most one refused call to the table, or the 400 response after a false
    presence test, or the 200 response after an accepted call. *)
Lemma try_block_inversion (event : pyval) (w : World) :
  (exists e w',
      try_block env event w = (inl e, w')
      /\ stdout w' = stdout w
      /\ (put_item_calls w' = put_item_calls w
          \/ exists name email message,
               put_item_calls w'
               = (put_item_calls w
                  ++ [Submission (generated_id env) name email message
                        (captured_timestamp env)])%list
               /\ put_item env (Submission (generated_id env) name email
                                  message (captured_timestamp env))
                  = inl e))
  \/ (exists text v,
        Py.get event "body" (PStr "{}") = inr (PStr text)
        /\ json_decode env text = inr v
        /\ all_in required_fields v = inr false
        /\ try_block env event w
           = (inr (response 400 missing_fields_text),
              {| stdout := stdout w ++ [LogValidationFailed];
                 put_item_calls := put_item_calls w |}))
  \/ (exists text d name email message,
        Py.get event "body" (PStr "{}") = inr (PStr text)
        /\ json_decode env text = inr (PDict d)
        /\ dict_lookup "name" d = Some name
        /\ dict_lookup "email" d = Some email
        /\ dict_lookup "message" d = Some message
        /\ put_item env (Submission (generated_id env) name email message
                           (captured_timestamp env))
           = inr tt
        /\ try_block env event w
           = (inr (response 200 success_text),
              {| stdout := stdout w
                           ++ [LogSaved (Submission (generated_id env) name
                                           email message
                                           (captured_timestamp env))];
                 put_item_calls :=
                   put_item_calls w
                   ++ [Submission (generated_id env) name email message
                         (captured_timestamp env)] |})).
Proof.
  run_handler.
  destruct (Py.get event "body" (PStr "{}")) as [e | raw] eqn:Hget;
    cbv beta iota;
    [left; do 2 eexists; split; [reflexivity | split; [reflexivity | now left]]
    | ].
  destruct raw;
    try (left; do 2 eexists;
         split; [reflexivity | split; [reflexivity | now left]]).
  destruct (json_decode env s) as [e | body] eqn:Hdec; cbv beta iota;
    [left; do 2 eexists; split; [reflexivity | split; [reflexivity | now left]]
    | ].
  destruct (all_in required_fields body) as [e | [ | ]] eqn:Hall;
    cbv beta iota;
    [left; do 2 eexists; split; [reflexivity | split; [reflexivity | now left]]
    |
    | right; left; exists s, body;
      repeat (split; [assumption || reflexivity | ]); reflexivity].
  cbn [negb].
  destruct (getitem body "name") as [e | name] eqn:Hn;
    [left; do 2 eexists; split; [reflexivity | split; [reflexivity | now left]]
    | ].
  destruct (getitem body "email") as [e | email] eqn:He;
    [left; do 2 eexists; split; [reflexivity | split; [reflexivity | now left]]
    | ].
  destruct (getitem body "message") as [e | message] eqn:Hm;
    [left; do 2 eexists; split; [reflexivity | split; [reflexivity | now left]]
    | ].
  apply getitem_inr in Hn, He, Hm.
  destruct Hn as (d & -> & Hn). destruct He as (d' & [= <-] & He).
  destruct Hm as (d' & [= <-] & Hm).
  fold (generated_id env) (captured_timestamp env).
  fold (Submission (generated_id env) name email message
          (captured_timestamp env)).
  destruct (put_item env _) as [e | []] eqn:Hput.
  - left; do 2 eexists. split; [reflexivity | split; [reflexivity | ]].
    right. exists name, email, message. split; [reflexivity | exact Hput].
  - right; right. exists s, d, name, email, message.
    repeat (split; [assumption || reflexivity | ]). reflexivity.
Qed.

End Traces.

(** ** What is logged *)

(** X1: every invocation prints exactly two lines: the received event, then
    the validation failure with the 400 response, or the saved record with
    the 200 response (the record being the one passed to the table), or the
    error with the 500 response. *)
Theorem run_logs_event_then_outcome
    (env : Env) (event context : pyval) (w : World) :
  exists entry,
    stdout (snd (lambda_handler env event context w))
    = (stdout w ++ [LogReceived event; entry])%list
    /\ ((entry = LogValidationFailed
         /\ fst (lambda_handler env event context w)
            = inr (response 400 missing_fields_text))
        \/ (exists item,
              entry = LogSaved item
              /\ fst (lambda_handler env event context w)
                 = inr (response 200 success_text)
              /\ put_item_calls (snd (lambda_handler env event context w))
                 = (put_item_calls w ++ [item])%list)
        \/ (exists e,
              entry = LogError e
              /\ fst (lambda_handler env event context w)
                 = inr (response 500 internal_error_text))).
Proof.
  rewrite lambda_handler_cases.
  destruct (try_block_inversion env event
              {| stdout := stdout w ++ [LogReceived event];
                 put_item_calls := put_item_calls w |})
    as [(e & w' & Hrun & Hlog & _)
       | [(text & v & _ & _ & _ & Hrun)
         | (text & d & name & email & message & _ & _ & _ & _ & _ & _ & Hrun)]];
    rewrite Hrun; cbn [fst snd stdout put_item_calls].
  - exists (LogError e). rewrite Hlog. cbn [stdout].
    rewrite <- app_assoc. split; [reflexivity | ].
    right; right. now exists e.
  - exists LogValidationFailed. rewrite <- app_assoc.
    split; [reflexivity | now left].
  - eexists. rewrite <- app_assoc. split; [reflexivity | ].
    right; left. eexists. repeat split.
Qed.

(** X2: when the table raises on the record, the record has been passed
    to it once, nothing is logged as saved, the table's exception is the
    one logged, and the response is the 500 response. *)
Theorem refused_write_is_logged_as_error
    (env : Env) (ev d : list (string * pyval)) (context : pyval) (w : World)
    (text : string) (name email message : pyval) (e : exn) :
  dict_lookup "body" ev = Some (PStr text) ->
  json_decode env text = inr (PDict d) ->
  dict_lookup "name" d = Some name ->
  dict_lookup "email" d = Some email ->
  dict_lookup "message" d = Some message ->
  put_item env (Submission (Uuid.str (Uuid.uuid4 (urandom env)))
                  name email message (Datetime.isoformat (utcnow env)))
  = inl e ->
  lambda_handler env (PDict ev) context w
  = (inr (response 500 internal_error_text),
     {| stdout := stdout w ++ [LogReceived (PDict ev); LogError e];
        put_item_calls :=
          put_item_calls w
          ++ [Submission (Uuid.str (Uuid.uuid4 (urandom env)))
                name email message (Datetime.isoformat (utcnow env))] |}).
Proof.
  intros Hbody Hdec Hn He Hm Hput.
  rewrite lambda_handler_cases.
  rewrite (try_block_stores env ev d text name email message _
             Hbody Hdec Hn He Hm).
  unfold generated_id, captured_timestamp. rewrite Hput.
  cbn [stdout put_item_calls]. rewrite <- app_assoc. reflexivity.
Qed.

Lemma refused_write_is_logged_as_error_witness :
  lambda_handler Sample.table_down (PDict (Sample.post Sample.ana)) PNone
    Sample.fresh
  = (inr (response 500 internal_error_text),
     {| stdout := [LogReceived (PDict (Sample.post Sample.ana));
                   LogError (StoreError "unreachable")];
        put_item_calls :=
          [Submission "01234567-89ab-4def-8123-456789abcdef"
             (PStr "Ana") (PStr "a@x.com") (PStr "hi")
             "2024-03-09T07:05:00.001234"] |}).
Proof.
  apply (refused_write_is_logged_as_error Sample.table_down
           (Sample.post Sample.ana)
           [("name", PStr "Ana"); ("email", PStr "a@x.com");
            ("message", PStr "hi")]
           PNone Sample.fresh Sample.ana
           (PStr "Ana") (PStr "a@x.com") (PStr "hi")
           (StoreError "unreachable"));
    reflexivity.
Defined.

(** ** Events and bodies of the wrong kind *)

(** X3: an event that is not a dict has no [get]: the AttributeError is
    caught and logged, the response is the 500 response and the table is not
    called. *)
Theorem event_without_get_gives_500
    (env : Env) (event context : pyval) (w : World) :
  is_dict event = false ->
  lambda_handler env event context w
  = (inr (response 500 internal_error_text),
     {| stdout := stdout w ++ [LogReceived event; LogError AttributeError];
        put_item_calls := put_item_calls w |}).
Proof.
  intros Hevent.
  rewrite lambda_handler_cases, (try_block_event_not_dict env event _ Hevent).
  cbn [stdout put_item_calls]. rewrite <- app_assoc. reflexivity.
Qed.

Lemma event_without_get_gives_500_witness :
  lambda_handler Sample.table_up (PList [PStr Sample.ana]) PNone Sample.fresh
  = (inr (response 500 internal_error_text),
     {| stdout := [LogReceived (PList [PStr Sample.ana]);
                   LogError AttributeError];
        put_item_calls := [] |}).
Proof.
  apply (event_without_get_gives_500 Sample.table_up
           (PList [PStr Sample.ana]) PNone Sample.fresh).
  reflexivity.
Defined.

(** X4: a body field that holds anything but a str, be it a dict with the
    three keys, is refused by [json.loads] with a TypeError: the response is
    the 500 response and the table is not called. *)
Theorem non_str_body_gives_500
    (env : Env) (ev : list (string * pyval)) (raw context : pyval)
    (w : World) :
  dict_lookup "body" ev = Some raw ->
  (forall text, raw <> PStr text) ->
  lambda_handler env (PDict ev) context w
  = (inr (response 500 internal_error_text),
     {| stdout := stdout w ++ [LogReceived (PDict ev); LogError TypeError];
        put_item_calls := put_item_calls w |}).
Proof.
  intros Hbody Hraw.
  rewrite lambda_handler_cases,
    (try_block_body_not_str env ev raw _ Hbody Hraw).
  cbn [stdout put_item_calls]. rewrite <- app_assoc. reflexivity.
Qed.

Lemma non_str_body_gives_500_witness :
  fst (lambda_handler Sample.table_up
         (PDict [("body", PDict [("name", PStr "Ana");
                                 ("email", PStr "a@x.com");
                                 ("message", PStr "hi")])])
         PNone Sample.fresh)
  = inr (response 500 internal_error_text).
Proof.
  rewrite (non_str_body_gives_500 Sample.table_up
             [("body", PDict [("name", PStr "Ana");
                              ("email", PStr "a@x.com");
                              ("message", PStr "hi")])]
             (PDict [("name", PStr "Ana"); ("email", PStr "a@x.com");
                     ("message", PStr "hi")])
             PNone Sample.fresh eq_refl);
    [reflexivity | discriminate].
Defined.

(** X5: for a body that decodes to a list, the response is 500 when the
    three field names are among its elements and 400 otherwise; for a body
    that decodes to a str, it is 500 when the three names occur in it as
    substrings and 400 otherwise; for null, a bool or a number it is 500. *)
Theorem non_object_body_status
    (env : Env) (ev : list (string * pyval)) (context : pyval) (w : World)
    (text : string) (v : pyval) :
  dict_lookup "body" ev = Some (PStr text) ->
  json_decode env text = inr v ->
  is_dict v = false ->
  fst (lambda_handler env (PDict ev) context w)
  = inr match v with
        | PList l =>
            if existsb (str_eq "name") l && existsb (str_eq "email") l
               && existsb (str_eq "message") l
            then response 500 internal_error_text
            else response 400 missing_fields_text
        | PStr s =>
            if str_contains "name" s && str_contains "email" s
               && str_contains "message" s
            then response 500 internal_error_text
            else response 400 missing_fields_text
        | _ => response 500 internal_error_text
        end.
Proof.
  intros Hbody Hdec Hv.
  run_handler. cbv beta iota delta [Py.get]. rewrite Hbody; cbv beta iota.
  rewrite Hdec; cbv beta iota.
  unfold required_fields.
  destruct v; try discriminate Hv; try reflexivity; cbn [all_in contains].
  - destruct (str_contains "name" s); [ | reflexivity].
    destruct (str_contains "email" s); [ | reflexivity].
    destruct (str_contains "message" s); reflexivity.
  - destruct (existsb (str_eq "name") l); [ | reflexivity].
    destruct (existsb (str_eq "email") l); [ | reflexivity].
    destruct (existsb (str_eq "message") l); reflexivity.
Qed.

Lemma non_object_body_status_witness :
  fst (lambda_handler Sample.table_up
         (PDict (Sample.post (Json.encode_str "name, email")))
         PNone Sample.fresh)
  = inr (response 400 missing_fields_text)
  /\ fst (lambda_handler Sample.table_up
            (PDict (Sample.post (Json.encode_str "name, email, message")))
            PNone Sample.fresh)
     = inr (response 500 internal_error_text).
Proof.
  split.
  - apply (non_object_body_status Sample.table_up
             (Sample.post (Json.encode_str "name, email")) PNone Sample.fresh
             (Json.encode_str "name, email") (PStr "name, email"));
      reflexivity.
  - apply (non_object_body_status Sample.table_up
             (Sample.post (Json.encode_str "name, email, message")) PNone
             Sample.fresh
             (Json.encode_str "name, email, message")
             (PStr "name, email, message"));
      reflexivity.
Defined.

(** ** What reaches the table *)

(** X6: no invocation calls the table more than once, and an item passed
    to it is always a record with the generated identifier, three values
    and the clock reading. *)
Theorem at_most_one_table_call
    (env : Env) (event context : pyval) (w : World) :
  put_item_calls (snd (lambda_handler env event context w))
  = put_item_calls w
  \/ exists name email message,
       put_item_calls (snd (lambda_handler env event context w))
       = (put_item_calls w
          ++ [Submission (Uuid.str (Uuid.uuid4 (urandom env)))
                name email message (Datetime.isoformat (utcnow env))])%list.
Proof.
  rewrite lambda_handler_cases.
  destruct (try_block_inversion env event
              {| stdout := stdout w ++ [LogReceived event];
                 put_item_calls := put_item_calls w |})
    as [(e & w' & Hrun & _ & Hcalls)
       | [(text & v & _ & _ & _ & Hrun)
         | (text & d & name & email & message & _ & _ & _ & _ & _ & _ & Hrun)]];
    rewrite Hrun; cbn [fst snd stdout put_item_calls].
  - destruct Hcalls as [Hnone | (name & email & message & Hone & _)].
    + now left.
    + right. now exists name, email, message.
  - now left.
  - right. now exists name, email, message.
Qed.

(** X7: the 200 response is returned only when the body field is a str
    that decodes to an object holding the three keys and the table has
    accepted the record made of their values. *)
Theorem status_200_only_after_accepted_write
    (env : Env) (event context resp : pyval) (w : World) :
  fst (lambda_handler env event context w) = inr resp ->
  status_code resp = Some (PInt 200) ->
  exists text d name email message,
    Py.get event "body" (PStr "{}") = inr (PStr text)
    /\ json_decode env text = inr (PDict d)
    /\ dict_lookup "name" d = Some name
    /\ dict_lookup "email" d = Some email
    /\ dict_lookup "message" d = Some message
    /\ put_item env (Submission (Uuid.str (Uuid.uuid4 (urandom env)))
                       name email message (Datetime.isoformat (utcnow env)))
       = inr tt
    /\ put_item_calls (snd (lambda_handler env event context w))
       = (put_item_calls w
          ++ [Submission (Uuid.str (Uuid.uuid4 (urandom env)))
                name email message (Datetime.isoformat (utcnow env))])%list.
Proof.
  rewrite lambda_handler_cases.
  destruct (try_block_inversion env event
              {| stdout := stdout w ++ [LogReceived event];
                 put_item_calls := put_item_calls w |})
    as [(e & w' & Hrun & _)
       | [(text & v & _ & _ & _ & Hrun)
         | (text & d & name & email & message
            & Hget & Hdec & Hn & He & Hm & Hput & Hrun)]];
    rewrite Hrun; cbn [fst snd stdout put_item_calls];
    intros [= <-] Hstatus; try discriminate Hstatus.
  exists text, d, name, email, message.
  repeat (split; [assumption | ]). reflexivity.
Qed.

Lemma status_200_only_after_accepted_write_witness :
  exists text d name email message,
    Py.get (PDict (Sample.post Sample.ana)) "body" (PStr "{}")
    = inr (PStr text)
    /\ json_decode Sample.table_up text = inr (PDict d)
    /\ dict_lookup "name" d = Some name
    /\ dict_lookup "email" d = Some email
    /\ dict_lookup "message" d = Some message
    /\ put_item Sample.table_up
         (Submission (Uuid.str (Uuid.uuid4 (urandom Sample.table_up)))
            name email message
            (Datetime.isoformat (utcnow Sample.table_up)))
       = inr tt
    /\ put_item_calls
         (snd (lambda_handler Sample.table_up (PDict (Sample.post Sample.ana))
                 PNone Sample.fresh))
       = ([]
          ++ [Submission (Uuid.str (Uuid.uuid4 (urandom Sample.table_up)))
                name email message
                (Datetime.isoformat (utcnow Sample.table_up))])%list.
Proof.
  apply (status_200_only_after_accepted_write Sample.table_up
           (PDict (Sample.post Sample.ana)) PNone
           (response 200 success_text) Sample.fresh);
    reflexivity.
Defined.

(** X8: the 400 response is returned only when the body field is a str
    that decodes to a value on which the presence test is false; the table
    is then not called, and when the value is an object one of the three
    keys is missing from it. *)
Theorem status_400_only_after_false_presence_test
    (env : Env) (event context resp : pyval) (w : World) :
  fst (lambda_handler env event context w) = inr resp ->
  status_code resp = Some (PInt 400) ->
  exists text v,
    Py.get event "body" (PStr "{}") = inr (PStr text)
    /\ json_decode env text = inr v
    /\ all_in required_fields v = inr false
    /\ put_item_calls (snd (lambda_handler env event context w))
       = put_item_calls w
    /\ forall d,
         v = PDict d ->
         dict_lookup "name" d = None \/ dict_lookup "email" d = None
         \/ dict_lookup "message" d = None.
Proof.
  rewrite lambda_handler_cases.
  destruct (try_block_inversion env event
              {| stdout := stdout w ++ [LogReceived event];
                 put_item_calls := put_item_calls w |})
    as [(e & w' & Hrun & _)
       | [(text & v & Hget & Hdec & Hall & Hrun)
         | (text & d & name & email & message
            & _ & _ & _ & _ & _ & _ & Hrun)]];
    rewrite Hrun; cbn [fst snd stdout put_item_calls];
    intros [= <-] Hstatus; try discriminate Hstatus.
  exists text, v.
  repeat (split; [assumption || reflexivity | ]).
  intros d ->. rewrite all_in_dict in Hall.
  injection Hall as Hall.
  apply andb_false_iff in Hall. destruct Hall as [Hall | Hm].
  - apply andb_false_iff in Hall. destruct Hall as [Hn | He].
    + left. now apply dict_mem_false.
    + right; left. now apply dict_mem_false.
  - right; right. now apply dict_mem_false.
Qed.

Lemma status_400_only_after_false_presence_test_witness :
  exists text v,
    Py.get (PDict (Sample.post Sample.ana_no_message)) "body" (PStr "{}")
    = inr (PStr text)
    /\ json_decode Sample.table_up text = inr v
    /\ all_in required_fields v = inr false
    /\ put_item_calls
         (snd (lambda_handler Sample.table_up
                 (PDict (Sample.post Sample.ana_no_message)) PNone
                 Sample.fresh))
       = []
    /\ forall d,
         v = PDict d ->
         dict_lookup "name" d = None \/ dict_lookup "email" d = None
         \/ dict_lookup "message" d = None.
Proof.
  apply (status_400_only_after_false_presence_test Sample.table_up
           (PDict (Sample.post Sample.ana_no_message)) PNone
           (response 400 missing_fields_text) Sample.fresh);
    reflexivity.
Defined.

(** ** The text of the identifier *)

Lemma append_assoc_str (s t u : string) : (s ++ t) ++ u = s ++ (t ++ u).
Proof. induction s as [ | c s IH]; cbn; [reflexivity | now rewrite IH]. Qed.

Lemma append_inj (s1 s2 t1 t2 : string) :
  String.length s1 = String.length s2 ->
  s1 ++ t1 = s2 ++ t2 -> s1 = s2 /\ t1 = t2.
Proof.
  revert s2. induction s1 as [ | c s1 IH]; intros [ | c2 s2] Hlen H;
    cbn in *; try discriminate.
  - now split.
  - injection H as -> H. injection Hlen as Hlen.
    destruct (IH s2 Hlen H) as [-> ->]. now split.
Qed.

Lemma hex_fixed_app (width : nat) (n : N) (acc : string) :
  Text.hex_fixed width n acc = Text.hex_fixed width n EmptyString ++ acc.
Proof.
  revert n acc. induction width as [ | width IH]; intros n acc; cbn.
  - reflexivity.
  - rewrite IH, (IH _ (String _ EmptyString)), append_assoc_str. reflexivity.
Qed.

Lemma hex_digit_inj (a b : N) :
  (a < 16)%N -> (b < 16)%N -> Text.hex_digit a = Text.hex_digit b -> a = b.
Proof.
  intros Ha Hb H.
  assert (Hv : forall x, (x < 16)%N ->
                 JsonRef.hex_value (Text.hex_digit x) = Some x).
  { intros x Hx.
    destruct x as [ | p]; [reflexivity | ].
    do 4 (destruct p as [p | p | ]; try reflexivity; try lia). }
  apply Hv in Ha, Hb. rewrite H in Ha. congruence.
Qed.

Lemma hex_fixed_inj (width : nat) (n m : N) :
  (n < 16 ^ N.of_nat width)%N -> (m < 16 ^ N.of_nat width)%N ->
  Text.hex_fixed width n EmptyString = Text.hex_fixed width m EmptyString ->
  n = m.
Proof.
  revert n m. induction width as [ | width IH]; intros n m Hn Hm H.
  - cbn in Hn, Hm. lia.
  - cbn [Text.hex_fixed] in H.
    rewrite (hex_fixed_app width (n / 16)), (hex_fixed_app width (m / 16)) in H.
    apply append_inj in H; [ | now rewrite !hex_fixed_length].
    destruct H as [Hhigh Hlow]. injection Hlow as Hlow.
    rewrite Nat2N.inj_succ, N.pow_succ_r' in Hn, Hm.
    apply IH in Hhigh;
      [ | apply N.Div0.div_lt_upper_bound; lia
        | apply N.Div0.div_lt_upper_bound; lia].
    apply hex_digit_inj in Hlow; try (apply N.mod_lt; discriminate).
    rewrite (N.div_mod n 16), (N.div_mod m 16) by discriminate. congruence.
Qed.

Ltac explode h Hlen :=
  do 32 (destruct h as [ | ? h]; [cbn in Hlen; lia | ]);
  destruct h; [ | cbn in Hlen; lia]; clear Hlen.

(** The grouping of 32 characters keeps them all, in order. *)
Lemma grouping_inj (h1 h2 : string) :
  String.length h1 = 32 -> String.length h2 = 32 ->
  substring 0 8 h1 ++ "-" ++ substring 8 4 h1 ++ "-" ++ substring 12 4 h1
  ++ "-" ++ substring 16 4 h1 ++ "-" ++ substring 20 12 h1
  = substring 0 8 h2 ++ "-" ++ substring 8 4 h2 ++ "-" ++ substring 12 4 h2
    ++ "-" ++ substring 16 4 h2 ++ "-" ++ substring 20 12 h2 ->
  h1 = h2.
Proof.
  intros Hlen1 Hlen2 H.
  explode h1 Hlen1. explode h2 Hlen2.
  cbn in H. congruence.
Qed.

Lemma uuid_str_inj (u1 u2 : N) :
  (u1 < 2 ^ 128)%N -> (u2 < 2 ^ 128)%N ->
  Uuid.str u1 = Uuid.str u2 -> u1 = u2.
Proof.
  intros H1 H2 H. unfold Uuid.str in H.
  apply grouping_inj in H; try (rewrite hex_fixed_length; reflexivity).
  apply hex_fixed_inj in H; [exact H | exact H1 | exact H2].
Qed.

Lemma hex_fixed_split (a b : nat) (n : N) (acc : string) :
  Text.hex_fixed (a + b) n acc
  = Text.hex_fixed a (n / 16 ^ N.of_nat b) (Text.hex_fixed b n acc).
Proof.
  revert n acc. induction b as [ | b IH]; intros n acc.
  - rewrite Nat.add_0_r. cbn. now rewrite N.div_1_r.
  - rewrite Nat.add_succ_r. cbn [Text.hex_fixed]. rewrite IH.
    rewrite Nat2N.inj_succ, N.pow_succ_r', N.Div0.div_div. reflexivity.
Qed.

Lemma get_after (s t : string) (c : ascii) :
  String.get (String.length s) (s ++ String c t) = Some c.
Proof. induction s as [ | c' s IH]; cbn; [reflexivity | exact IH]. Qed.

(** The character at index [i] of the 32 digits is the digit of weight
    16^(31 - i). *)
Lemma hex_fixed_get (i k : nat) (n : N) :
  i + S k = 32 ->
  String.get i (Text.hex_fixed 32 n EmptyString)
  = Some (Text.hex_digit ((n / 16 ^ N.of_nat k) mod 16)).
Proof.
  intros <-.
  rewrite hex_fixed_split, hex_fixed_app.
  replace (S k) with (1 + k) by reflexivity.
  rewrite (hex_fixed_split 1 k). cbn [Text.hex_fixed].
  pose proof (hex_fixed_length i (n / 16 ^ N.of_nat (1 + k)) EmptyString)
    as Hlen.
  cbn [String.length] in Hlen. rewrite Nat.add_0_r in Hlen.
  set (high := Text.hex_fixed i (n / 16 ^ N.of_nat (1 + k)) EmptyString) in *.
  rewrite <- Hlen. apply get_after.
Qed.

Lemma uuid4_version_digit (random : N) :
  ((Uuid.uuid4 random / 16 ^ 19) mod 16 = 4)%N.
Proof.
  rewrite <- (uuid4_version random).
  rewrite N.shiftr_div_pow2.
  change 0xf%N with (N.ones 4). rewrite N.land_ones. reflexivity.
Qed.

Lemma uuid4_variant (random : N) :
  N.land (N.shiftr (Uuid.uuid4 random) 62) 3 = 2%N.
Proof.
  unfold Uuid.uuid4. apply N.bits_inj; intros i.
  rewrite N.land_spec, N.shiftr_spec', N.lor_spec, N.ldiff_spec, N.lor_spec,
    N.ldiff_spec.
  destruct (N.lt_ge_cases i 2) as [Hlow | Hhigh].
  - assert (Hi : (i = 0 \/ i = 1)%N) by lia.
    destruct Hi as [-> | ->]; cbn;
      now rewrite ?andb_false_r, ?orb_true_r, ?orb_false_r, ?andb_true_r.
  - replace (N.testbit 3 i) with false; [rewrite andb_false_r | ].
    + symmetry. apply N.bits_above_log2. cbn. lia.
    + symmetry. apply N.bits_above_log2. cbn. lia.
Qed.

Lemma identifier_text_shape (random : N) :
  let s := Uuid.str (Uuid.uuid4 random) in
  String.length s = 36
  /\ String.get 8 s = Some "-"%char /\ String.get 13 s = Some "-"%char
  /\ String.get 18 s = Some "-"%char /\ String.get 23 s = Some "-"%char
  /\ String.get 14 s = Some "4"%char.
Proof.
  cbv zeta. split; [apply uuid_str_length | ].
  pose proof (hex_fixed_get 12 19 (Uuid.uuid4 random) eq_refl) as Hdigit.
  change (N.of_nat 19) with 19%N in Hdigit.
  rewrite uuid4_version_digit in Hdigit. cbn [Text.hex_digit] in Hdigit.
  unfold Uuid.str.
  pose proof (hex_fixed_length 32 (Uuid.uuid4 random) EmptyString) as Hlen.
  cbn [String.length Nat.add] in Hlen.
  revert Hdigit Hlen.
  generalize (Text.hex_fixed 32 (Uuid.uuid4 random) EmptyString) as h.
  intros h Hdigit Hlen.
  assert (Hlen' : String.length h = 32) by lia. clear Hlen.
  do 32 (destruct h as [ | ? h]; [cbn in Hlen'; lia | ]).
  destruct h; [ | cbn in Hlen'; lia].
  cbn in Hdigit. cbn. repeat split; assumption.
Qed.

Lemma uuid4_variant_digit (random : N) :
  (8 <= (Uuid.uuid4 random / 16 ^ 15) mod 16 <= 11)%N.
Proof.
  pose proof (uuid4_variant random) as Hvariant.
  rewrite N.shiftr_div_pow2 in Hvariant.
  change 3%N with (N.ones 2) in Hvariant. rewrite N.land_ones in Hvariant.
  change (2 ^ 62)%N with (16 ^ 15 * 4)%N in Hvariant.
  rewrite <- N.Div0.div_div in Hvariant.
  change (2 ^ 2)%N with 4%N in Hvariant.
  revert Hvariant. generalize (Uuid.uuid4 random / 16 ^ 15)%N as x.
  intros x Hvariant.
  change (x mod 16)%N with (x mod (4 * 4))%N.
  rewrite N.Div0.mod_mul_r, Hvariant.
  assert (Hlow : (x mod 4 < 4)%N) by (apply N.mod_lt; discriminate).
  clear Hvariant. revert Hlow. generalize (x mod 4)%N as low.
  intros low Hlow. split; [apply N.le_add_l | ].
  change 11%N with (3 + 4 * 2)%N. apply N.add_le_mono_r.
  now apply N.lt_succ_r.
Qed.

(** X9: the id of a record is the canonical text of a version 4 UUID: 36
    characters, hyphens at indexes 8, 13, 18 and 23, the digit 4 at index
    14 and one of 8, 9, a, b at index 19. *)
Theorem identifier_text_is_canonical (env : Env) :
  String.length (Uuid.str (Uuid.uuid4 (urandom env))) = 36
  /\ String.get 8 (Uuid.str (Uuid.uuid4 (urandom env))) = Some "-"%char
  /\ String.get 13 (Uuid.str (Uuid.uuid4 (urandom env))) = Some "-"%char
  /\ String.get 18 (Uuid.str (Uuid.uuid4 (urandom env))) = Some "-"%char
  /\ String.get 23 (Uuid.str (Uuid.uuid4 (urandom env))) = Some "-"%char
  /\ String.get 14 (Uuid.str (Uuid.uuid4 (urandom env))) = Some "4"%char
  /\ In (String.get 19 (Uuid.str (Uuid.uuid4 (urandom env))))
       [Some "8"%char; Some "9"%char; Some "a"%char; Some "b"%char].
Proof.
  destruct (identifier_text_shape (urandom env))
    as (Hlen & H8 & H13 & H18 & H23 & H14).
  repeat (split; [assumption | ]).
  pose proof (hex_fixed_get 16 15 (Uuid.uuid4 (urandom env)) eq_refl)
    as Hdigit.
  change (N.of_nat 15) with 15%N in Hdigit.
  pose proof (uuid4_variant_digit (urandom env)) as Hrange.
  assert (Hcases :
            In (Text.hex_digit ((Uuid.uuid4 (urandom env) / 16 ^ 15) mod 16))
               ["8"%char; "9"%char; "a"%char; "b"%char]).
  { set (digit := ((Uuid.uuid4 (urandom env) / 16 ^ 15) mod 16)%N) in *.
    assert (Hd : (digit = 8 \/ digit = 9 \/ digit = 10 \/ digit = 11)%N)
      by lia.
    destruct Hd as [-> | [-> | [-> | ->]]]; cbn; tauto. }
  revert Hdigit Hcases.
  generalize (Text.hex_digit ((Uuid.uuid4 (urandom env) / 16 ^ 15) mod 16)).
  intros c Hdigit Hcases.
  pose proof (hex_fixed_length 32 (Uuid.uuid4 (urandom env)) EmptyString)
    as Hlen32.
  cbn [String.length Nat.add] in Hlen32.
  unfold Uuid.str. revert Hdigit Hlen32.
  generalize (Text.hex_fixed 32 (Uuid.uuid4 (urandom env)) EmptyString) as h.
  intros h Hdigit Hlen32.
  assert (Hlen' : String.length h = 32) by lia. clear Hlen32.
  do 32 (destruct h as [ | ? h]; [cbn in Hlen'; lia | ]).
  destruct h; [ | cbn in Hlen'; lia].
  cbn in Hdigit. cbn [substring append String.get].
  injection Hdigit as ->.
  cbn in Hcases. cbn.
  destruct Hcases as [<- | [<- | [<- | [<- | []]]]]; tauto.
Qed.

(** ** Submitting twice *)

(** X10: nothing is deduplicated.  When the same request is handled twice
    and the table accepts both records, the table has been called twice,
    once per invocation and in that order; the two records differ as soon as
    the two generated identifiers differ. *)
Theorem resubmission_is_stored_again
    (env1 env2 : Env) (ev d : list (string * pyval))
    (context1 context2 : pyval) (w : World)
    (text : string) (name email message : pyval) :
  dict_lookup "body" ev = Some (PStr text) ->
  json_decode env1 text = inr (PDict d) ->
  json_decode env2 text = inr (PDict d) ->
  dict_lookup "name" d = Some name ->
  dict_lookup "email" d = Some email ->
  dict_lookup "message" d = Some message ->
  put_item env1 (Submission (Uuid.str (Uuid.uuid4 (urandom env1)))
                   name email message (Datetime.isoformat (utcnow env1)))
  = inr tt ->
  put_item env2 (Submission (Uuid.str (Uuid.uuid4 (urandom env2)))
                   name email message (Datetime.isoformat (utcnow env2)))
  = inr tt ->
  put_item_calls
    (snd (lambda_handler env2 (PDict ev) context2
            (snd (lambda_handler env1 (PDict ev) context1 w))))
  = (put_item_calls w
     ++ [Submission (Uuid.str (Uuid.uuid4 (urandom env1)))
           name email message (Datetime.isoformat (utcnow env1));
         Submission (Uuid.str (Uuid.uuid4 (urandom env2)))
           name email message (Datetime.isoformat (utcnow env2))])%list
  /\ (Uuid.uuid4 (urandom env1) <> Uuid.uuid4 (urandom env2) ->
      Submission (Uuid.str (Uuid.uuid4 (urandom env1)))
        name email message (Datetime.isoformat (utcnow env1))
      <> Submission (Uuid.str (Uuid.uuid4 (urandom env2)))
           name email message (Datetime.isoformat (utcnow env2))).
Proof.
  intros Hbody Hdec1 Hdec2 Hn He Hm Hput1 Hput2.
  split.
  - rewrite !lambda_handler_cases.
    rewrite (try_block_stores env1 ev d text name email message _
               Hbody Hdec1 Hn He Hm).
    unfold generated_id, captured_timestamp. rewrite Hput1.
    cbn [fst snd stdout put_item_calls].
    rewrite (try_block_stores env2 ev d text name email message _
               Hbody Hdec2 Hn He Hm).
    unfold generated_id, captured_timestamp. rewrite Hput2.
    cbn [fst snd stdout put_item_calls].
    rewrite <- app_assoc. reflexivity.
  - intros Hdiff Hsame. apply Hdiff.
    apply uuid_str_inj; [apply uuid4_below_2_128 | apply uuid4_below_2_128 | ].
    revert Hsame.
    generalize (Uuid.str (Uuid.uuid4 (urandom env1))) as id1.
    generalize (Uuid.str (Uuid.uuid4 (urandom env2))) as id2.
    generalize (Datetime.isoformat (utcnow env1)) as t1.
    generalize (Datetime.isoformat (utcnow env2)) as t2.
    unfold Submission. intros t2 t1 id2 id1 Hsame. congruence.
Qed.

Lemma resubmission_is_stored_again_witness :
  put_item_calls
    (snd (lambda_handler
            {| json_decode := JsonRef.decode; urandom := 7;
               utcnow := Sample.clock; put_item := fun _ => inr tt |}
            (PDict (Sample.post Sample.ana)) PNone
            (snd (lambda_handler Sample.table_up
                    (PDict (Sample.post Sample.ana)) PNone Sample.fresh))))
  = [Submission "01234567-89ab-4def-8123-456789abcdef"
       (PStr "Ana") (PStr "a@x.com") (PStr "hi") "2024-03-09T07:05:00.001234";
     Submission "00000000-0000-4000-8000-000000000007"
       (PStr "Ana") (PStr "a@x.com") (PStr "hi") "2024-03-09T07:05:00.001234"]
  /\ Submission "01234567-89ab-4def-8123-456789abcdef"
       (PStr "Ana") (PStr "a@x.com") (PStr "hi") "2024-03-09T07:05:00.001234"
     <> Submission "00000000-0000-4000-8000-000000000007"
          (PStr "Ana") (PStr "a@x.com") (PStr "hi")
          "2024-03-09T07:05:00.001234".
Proof.
  destruct (resubmission_is_stored_again Sample.table_up
              {| json_decode := JsonRef.decode; urandom := 7;
                 utcnow := Sample.clock; put_item := fun _ => inr tt |}
              (Sample.post Sample.ana)
              [("name", PStr "Ana"); ("email", PStr "a@x.com");
               ("message", PStr "hi")]
              PNone PNone Sample.fresh Sample.ana
              (PStr "Ana") (PStr "a@x.com") (PStr "hi")
              eq_refl eq_refl eq_refl eq_refl eq_refl eq_refl eq_refl eq_refl)
    as (Hcalls & Hdiffer).
  split; [exact Hcalls | ].
  assert (Hids : Uuid.uuid4 (urandom Sample.table_up) <> Uuid.uuid4 7)
    by (vm_compute; discriminate).
  exact (Hdiffer Hids).
Defined.

(** ** The text of the timestamp *)

Lemma zeros_length (k : nat) : String.length (Text.zeros k) = k.
Proof. induction k as [ | k IH]; cbn; [reflexivity | now rewrite IH]. Qed.

(** A number below 10^k is written with at most k digits. *)
Lemma dec_digits_length (fuel : nat) (n : N) (acc : string) (k : nat) :
  (n < 10 ^ N.of_nat k)%N -> 1 <= k ->
  String.length (Text.dec_digits fuel n acc) <= k + String.length acc.
Proof.
  revert n acc k. induction fuel as [ | fuel IH]; intros n acc k Hn Hk.
  - cbn. lia.
  - cbn [Text.dec_digits].
    destruct (N.eqb_spec (n / 10) 0) as [Hlast | Hmore].
    + cbn. lia.
    + destruct k as [ | [ | k]]; [lia | | ].
      * exfalso. apply Hmore. apply N.div_small. exact Hn.
      * etransitivity.
        { apply (IH (n / 10)%N _ (S k)); [ | lia].
          apply N.Div0.div_lt_upper_bound.
          rewrite <- N.pow_succ_r', <- Nat2N.inj_succ. exact Hn. }
        cbn. lia.
Qed.

Lemma zpad_length (width : nat) (n : N) :
  (n < 10 ^ N.of_nat width)%N -> 1 <= width ->
  String.length (Text.zpad width n) = width.
Proof.
  intros Hn Hwidth. unfold Text.zpad, Text.dec.
  pose proof (dec_digits_length (S (N.size_nat n)) n EmptyString width
                Hn Hwidth) as Hlen.
  cbn [String.length] in Hlen.
  rewrite append_length, zeros_length. lia.
Qed.

Ltac explode_by_length s H :=
  repeat (destruct s as [ | ? s]; cbn in H; try lia).

(** X11: for a clock reading within the ranges of a datetime, the
    timestamp has 19 characters when the microsecond is 0 and 26 otherwise,
    with hyphens at indexes 4 and 7, T at index 10, colons at indexes 13 and
    16 and, when there are microseconds, a dot at index 19: nothing follows
    the seconds or the microseconds, so the text carries no offset. *)
Theorem timestamp_text_layout (env : Env) :
  in_range (utcnow env) ->
  String.length (Datetime.isoformat (utcnow env))
  = (if (Datetime.microsecond (utcnow env) =? 0)%N then 19 else 26)
  /\ String.get 4 (Datetime.isoformat (utcnow env)) = Some "-"%char
  /\ String.get 7 (Datetime.isoformat (utcnow env)) = Some "-"%char
  /\ String.get 10 (Datetime.isoformat (utcnow env)) = Some "T"%char
  /\ String.get 13 (Datetime.isoformat (utcnow env)) = Some ":"%char
  /\ String.get 16 (Datetime.isoformat (utcnow env)) = Some ":"%char
  /\ String.get 19 (Datetime.isoformat (utcnow env))
     = (if (Datetime.microsecond (utcnow env) =? 0)%N then None
        else Some "."%char).
Proof.
  intros (Hy & Hmo & Hd & Hh & Hmi & Hs & Hus).
  unfold Datetime.isoformat.
  assert (Ly : String.length (Text.zpad 4 (Datetime.year (utcnow env))) = 4)
    by (apply zpad_length; [cbn; lia | lia]).
  assert (Lmo : String.length (Text.zpad 2 (Datetime.month (utcnow env))) = 2)
    by (apply zpad_length; [cbn; lia | lia]).
  assert (Ld : String.length (Text.zpad 2 (Datetime.day (utcnow env))) = 2)
    by (apply zpad_length; [cbn; lia | lia]).
  assert (Lh : String.length (Text.zpad 2 (Datetime.hour (utcnow env))) = 2)
    by (apply zpad_length; [cbn; lia | lia]).
  assert (Lmi : String.length (Text.zpad 2 (Datetime.minute (utcnow env))) = 2)
    by (apply zpad_length; [cbn; lia | lia]).
  assert (Ls : String.length (Text.zpad 2 (Datetime.second (utcnow env))) = 2)
    by (apply zpad_length; [cbn; lia | lia]).
  assert (Lus : String.length
                  (Text.zpad 6 (Datetime.microsecond (utcnow env))) = 6)
    by (apply zpad_length; [cbn; lia | lia]).
  revert Ly Lmo Ld Lh Lmi Ls Lus.
  generalize (Text.zpad 4 (Datetime.year (utcnow env))) as y.
  generalize (Text.zpad 2 (Datetime.month (utcnow env))) as mo.
  generalize (Text.zpad 2 (Datetime.day (utcnow env))) as d.
  generalize (Text.zpad 2 (Datetime.hour (utcnow env))) as h.
  generalize (Text.zpad 2 (Datetime.minute (utcnow env))) as mi.
  generalize (Text.zpad 2 (Datetime.second (utcnow env))) as s.
  generalize (Text.zpad 6 (Datetime.microsecond (utcnow env))) as us.
  intros us s mi h d mo y Ly Lmo Ld Lh Lmi Ls Lus.
  explode_by_length y Ly. explode_by_length mo Lmo. explode_by_length d Ld. explode_by_length h Lh.
  explode_by_length mi Lmi. explode_by_length s Ls. explode_by_length us Lus.
  destruct (Datetime.microsecond (utcnow env) =? 0)%N; cbn; repeat split.
Qed.

Lemma timestamp_text_layout_witness :
  String.length (Datetime.isoformat (utcnow Sample.table_up)) = 26
  /\ String.get 4 (Datetime.isoformat (utcnow Sample.table_up))
     = Some "-"%char
  /\ String.get 7 (Datetime.isoformat (utcnow Sample.table_up))
     = Some "-"%char
  /\ String.get 10 (Datetime.isoformat (utcnow Sample.table_up))
     = Some "T"%char
  /\ String.get 13 (Datetime.isoformat (utcnow Sample.table_up))
     = Some ":"%char
  /\ String.get 16 (Datetime.isoformat (utcnow Sample.table_up))
     = Some ":"%char
  /\ String.get 19 (Datetime.isoformat (utcnow Sample.table_up))
     = Some "."%char.
Proof.
  apply (timestamp_text_layout Sample.table_up).
  unfold in_range. cbn. lia.
Defined.

(** ** The table name *)


